(** * query/command: execution of Select and of the profiling decorator

    A shallow embedding of [src/query/command/command.go].  The Go code
    is followed statement by statement; the collaborators that live in
    other packages ([api], [function], [inspect], [natural_sort]) are
    either parameters of a section or small models written from the
    specification, and are marked as such. *)

From Stdlib Require Import ZArith Lia.
From stdpp Require Import base option list strings gmap sorting.

Local Open Scope Z_scope.

(** ** Go integers *)

Module GoInt.

(** Two's-complement wrap-around of a 64-bit signed integer. *)
Definition wrap64 (z : Z) : Z := (z + 2 ^ 63) mod 2 ^ 64 - 2 ^ 63.

Definition MinInt64 : Z := - 2 ^ 63.
Definition MaxInt64 : Z := 2 ^ 63 - 1.

Definition fits64 (z : Z) : Prop := MinInt64 <= z <= MaxInt64.

(** [x / y] on int64: truncated towards zero, a run-time panic when the
    divisor is zero, wrap-around for [MinInt64 / -1]. *)
Definition div64 (x y : Z) : option Z :=
  if y =? 0 then None else Some (wrap64 (Z.quot x y)).

End GoInt.

Import GoInt.

(** ** Time

    [time.Duration] is an int64 count of nanoseconds.  A [time.Time] is an
    instant; it is kept as the exact number of nanoseconds since the Unix
    epoch, and [UnixNano] is where the int64 representation comes in. *)

Definition Duration : Type := Z.
Definition Time : Type := Z.

Definition Millisecond : Duration := 1000000.

Definition UnixNano (t : Time) : Z := wrap64 t.

(** ** Errors and outcomes *)

(** The two arguments of [function.NewLimitError] are [interface{}]
    values; Execute passes either two ints or two durations. *)
Inductive LimitValue : Type :=
| IntValue (n : Z)
| DurationValue (d : Duration).

Inductive error : Type :=
| ExternalError (msg : string)
    (* an error made by a collaborator: api, storage backend, evaluation *)
| LimitError (msg : string) (actual limit : LimitValue)
    (* function.NewLimitError *)
| Errorf (msg : string).
    (* fmt.Errorf *)

Inductive result (A : Type) : Type :=
| Ok (a : A)
| Err (e : error).
Arguments Ok {A} a.
Arguments Err {A} e.

(** A Go call either returns or panics. *)
Inductive exec (A : Type) : Type :=
| Ret (a : A)
| Panic (msg : string).
Arguments Ret {A} a.
Arguments Panic {A} msg.

Definition divide_by_zero : string := "runtime error: integer divide by zero".
Definition index_out_of_range : string := "runtime error: index out of range".

(** ** api.Timerange *)

(** Modelled from the spec: [api.Timerange] and its accessors, which are
    in package [api] and not under src/.  Section 3 of the specification:
    an immutable value {start, end, resolution} in milliseconds, with
    derived duration and slot count [(end - start) / resolution + 1]. *)
Record Timerange : Type := mkTimerange {
  tr_start : Z;
  tr_end : Z;
  tr_resolution : Z
}.

Definition StartMillis (tr : Timerange) : Z := tr_start tr.
Definition EndMillis (tr : Timerange) : Z := tr_end tr.
Definition ResolutionMillis (tr : Timerange) : Z := tr_resolution tr.

(** Modelled from the spec: the start of the range as an instant. *)
Definition Start (tr : Timerange) : Time := tr_start tr * Millisecond.

(** Modelled from the spec: the resolution and the duration of the range
    as [time.Duration] values (milliseconds times [time.Millisecond]). *)
Definition Resolution (tr : Timerange) : Duration :=
  wrap64 (tr_resolution tr * Millisecond).

Definition TimerangeDuration (tr : Timerange) : Duration :=
  wrap64 ((tr_end tr - tr_start tr) * Millisecond).

(** Modelled from the spec: slots = floor((end - start) / resolution) + 1. *)
Definition Slots (tr : Timerange) : Z :=
  (tr_end tr - tr_start tr) / tr_resolution tr + 1.

(** Modelled from the spec: one snapping function that agrees with
    section 4.1 (end is aligned to the grid that the resolution implies
    from start; a non-positive resolution or slot count is refused).  The
    theorems below hold for any snapping function; this one instantiates
    them on concrete inputs. *)
Definition gridSnappedTimerange (start end_ resolution : Z) : result Timerange :=
  if resolution <=? 0 then Err (ExternalError "invalid resolution")
  else if (end_ - start) / resolution + 1 <=? 0 then Err (ExternalError "invalid range")
  else Ok (mkTimerange start (start + (end_ - start) / resolution * resolution) resolution).

(** ** Series, scalars and values *)

Definition TagSet : Type := gmap string string.

(** Samples are float64 in the source; Execute never inspects them. *)
Definition float64 : Type := Z.

Record Timeseries : Type := mkTimeseries {
  Values : list float64;
  SeriesTagSet : TagSet
}.

Record SeriesList : Type := mkSeriesList {
  Series : list Timeseries
}.

Record TaggedScalar : Type := mkTaggedScalar {
  ScalarTagSet : TagSet;
  ScalarValue : float64
}.

(** [function.Value] is an interface.  Execute uses two of its methods
    and one dynamic type test, [v.(function.SeriesListValue)]. *)
Record Value : Type := mkValue {
  asSeriesListValue : option SeriesList;
  ToSeriesList : Timerange -> result SeriesList;
  ToScalarSet : result (list TaggedScalar)
}.

(** ** Expressions *)

Inductive Registry : Type :=
| DefaultRegistry
| CustomRegistry (id : nat).

(** The part of [function.WidestMode] an expression reads (lines 220 to
    226).  The fields [Earliest] and [Mutex] are the shared cell and its
    lock; the cell is the state threaded through [Select.widenAll]. *)
Record WidestMode : Type := mkWidestMode {
  WidestRegistry : Registry;
  Current : Time;
  WidestResolution : Duration
}.

(** What Execute passes to [ExpressionDescription] for a string. Lines
    340, 341, 350 and 351 pass the result of calling
    [function.StringQuery()] or [function.StringName()]; line 357 passes
    the function [function.StringQuery] itself, without calling it. *)
Inductive DescriptionMode : Type :=
| StringQueryMode
| StringNameMode
| StringQueryFunction.

(** Modelled from the spec: the interface [function.Expression] (package
    [function] is not under src/).  Its method [ExpressionDescription]
    returns a string for a string mode; called with a [WidestMode] its
    only use is its effect on the shared earliest start.  For that
    effect, section 4.2: an expression may lower [earliest], never raise
    it; section 9: the cell is updated by compare-and-lower.  An
    expression therefore contributes the instants it asks for. *)
Record Expression : Type := mkExpression {
  ExpressionDescription : DescriptionMode -> string;
  widenTimes : WidestMode -> list Time
}.

(** Modelled from the spec: compare-and-lower of the shared cell. *)
Definition AddTime (t earliest : Time) : Time :=
  if t <? earliest then t else earliest.

(** ** Contexts, commands and results *)

(** [predicate.Predicate] is an interface with one method, Apply. *)
Definition Predicate : Type := TagSet -> bool.

(** Modelled from the spec: [predicate.All] (package [predicate] is not
    under src/), the conjunction of the query predicate with the optional
    additional constraint. *)
Definition PredicateAll (p : Predicate) (q : option Predicate) : Predicate :=
  match q with
  | Some q' => fun ts => p ts && q' ts
  | None => p
  end.

Definition SampleMethod : Type := nat.

(** A span recorded by an [inspect.Profiler]; only its name is kept. *)
Definition Profile : Type := string.

(** A [*inspect.Profiler]: the address of a profiler in the heap. *)
Definition ProfilerRef : Type := nat.

(** The profilers that exist, by address: the spans each has recorded. *)
Abbreviation Heap := (gmap ProfilerRef (list Profile)).

(** The one method of [timeseries.StorageAPI] that Execute calls. *)
Record StorageAPI : Type := mkStorageAPI {
  ChooseResolution : Timerange -> Duration -> result Duration
}.

(** The method of [metadata.MetricAPI] that DescribeMetricsCommand calls;
    it is handed the profiler of the context and may record on it. *)
Record MetricAPI : Type := mkMetricAPI {
  GetMetricsForTag :
    string -> string -> option ProfilerRef -> Heap -> result (list string) * Heap
}.

(** The field [Ctx] is the cancellation context of the request; all that
    Execute does with it is to wait on its Done channel, which is the flag
    [ctxDone] of the race further down. *)
Record ExecutionContext : Type := mkExecutionContext {
  TimeseriesStorageAPI : StorageAPI;
  MetricMetadataAPI : MetricAPI;
  FetchLimit : Z;
  Timeout : Duration;
  ContextRegistry : option Registry;
  SlotLimit : Z;
  Profiler : option ProfilerRef;
  AdditionalConstraints : option Predicate
}.

Definition withSlotLimit (n : Z) (context : ExecutionContext) : ExecutionContext :=
  {| TimeseriesStorageAPI := TimeseriesStorageAPI context;
     MetricMetadataAPI := MetricMetadataAPI context;
     FetchLimit := FetchLimit context;
     Timeout := Timeout context;
     ContextRegistry := ContextRegistry context;
     SlotLimit := n;
     Profiler := Profiler context;
     AdditionalConstraints := AdditionalConstraints context |}.

Definition withProfiler (p : option ProfilerRef) (context : ExecutionContext)
  : ExecutionContext :=
  {| TimeseriesStorageAPI := TimeseriesStorageAPI context;
     MetricMetadataAPI := MetricMetadataAPI context;
     FetchLimit := FetchLimit context;
     Timeout := Timeout context;
     ContextRegistry := ContextRegistry context;
     SlotLimit := SlotLimit context;
     Profiler := p;
     AdditionalConstraints := AdditionalConstraints context |}.

Record SelectContext : Type := mkSelectContext {
  ContextStart : Z;
  ContextEnd : Z;
  ContextResolution : Z;
  ContextSampleMethod : SampleMethod
}.

Record SelectCommand : Type := mkSelectCommand {
  SelectPredicate : Predicate;
  Expressions : list Expression;
  Context : SelectContext
}.

Record QueryResult : Type := mkQueryResult {
  Query : string;
  QueryName : string;
  QueryType : string;
  QuerySeries : list Timeseries;
  QueryTimerange : Timerange;
  QueryScalars : list TaggedScalar
}.

(** The zero value of [api.Timerange], left in a "scalars" QueryResult. *)
Definition zeroTimerange : Timerange := mkTimerange 0 0 0.

Inductive MetaValue : Type :=
| MetaCount (n : Z)
| MetaDescription (description : gmap string (list string))
| MetaNotes (notes : list string)
| MetaResolution (resolution : Duration)
| MetaProfile (profiles : list Profile).

Inductive BodyValue : Type :=
| NilBody
| SelectBody (body : list QueryResult)
| MetricsBody (metrics : list string).

(** [Metadata] is a Go map: [None] is the nil map of [Result{}]. *)
Record Result : Type := mkResult {
  Body : BodyValue;
  Metadata : option (gmap string MetaValue)
}.

Definition emptyResult : Result := mkResult NilBody None.

(** What [Execute] hands back: the pair (Result, error) or a panic. *)
Definition Returned : Type := exec (Result * option error).

Definition fail (e : error) : Returned := Ret (emptyResult, Some e).
Definition succeed (r : Result) : Returned := Ret (r, None).

(** The [function.EvaluationContext] built at lines 276 to 289. *)
Record EvaluationContext : Type := mkEvaluationContext {
  EvalFetchLimit : Z;
  EvalStorageAPI : StorageAPI;
  EvalPredicate : Predicate;
  EvalSampleMethod : SampleMethod;
  EvalTimerange : Timerange;
  EvalRegistry : Registry;
  EvalProfiler : option ProfilerRef
}.

Definition EvaluationNotes : Type := list string.

(** Which case of the [select] statement at line 303 is taken. *)
Inductive SelectCase : Type :=
| CtxDone       (* case <-ctx.Done() *)
| TaskFinished. (* case err := <-errors, or case result := <-results *)

(** ** The description map of a Select result (lines 309 to 331) *)

(** [description[key] = append(description[key], value)]. *)
Definition appendTag (description : gmap string (list string)) (key value : string)
  : gmap string (list string) :=
  <[key := default [] (description !! key) ++ [value]]> description.

(** [for key, value := range series.TagSet]. *)
Definition addTagSet (description : gmap string (list string)) (tags : TagSet)
  : gmap string (list string) :=
  map_fold (fun key value d => appendTag d key value) description tags.

(** [for _, series := range list.Series]. *)
Definition addSeriesList (description : gmap string (list string)) (l : SeriesList)
  : gmap string (list string) :=
  fold_left (fun d series => addTagSet d (SeriesTagSet series)) (Series l) description.

(** [for _, value := range result], skipping the values whose
    [ToSeriesList] fails. *)
Definition collectTags (tr : Timerange) (values : list Value)
  : gmap string (list string) :=
  fold_left
    (fun d value =>
       match ToSeriesList value tr with
       | Err _ => d
       | Ok l => addSeriesList d l
       end)
    values ∅.

(** The loop of lines 325 to 329: keep [values[i]] when [i == 0] or it
    differs from [values[i-1]].  [prev] is [None] exactly at [i == 0]. *)
Fixpoint filterAdjacent (prev : option string) (values : list string) : list string :=
  match values with
  | [] => []
  | v :: rest =>
      if decide (prev = Some v) then filterAdjacent (Some v) rest
      else v :: filterAdjacent (Some v) rest
  end.

(** ** Channels and the race of lines 291 to 368 *)

Module Chan.

(** A Go channel made by [make(chan A, capacity)]: the values sent and
    not yet received, oldest first. *)
Record chan (A : Type) : Type := mkChan {
  capacity : nat;
  buffer : list A
}.
Arguments mkChan {A} capacity buffer.
Arguments capacity {A} c.
Arguments buffer {A} c.

Definition make {A : Type} (n : nat) : chan A := mkChan n [].

(** A send that proceeds without a receiver: there is room in the
    buffer.  [None] means that the sender blocks. *)
Definition send {A : Type} (c : chan A) (v : A) : option (chan A) :=
  if decide (length (buffer c) < capacity c)%nat
  then Some (mkChan (capacity c) (buffer c ++ [v]))
  else None.

(** A receive that proceeds: the buffer is not empty. *)
Definition recv {A : Type} (c : chan A) : option (A * chan A) :=
  match buffer c with
  | [] => None
  | v :: rest => Some (v, mkChan (capacity c) rest)
  end.

End Chan.

Module Race.

(** The goroutine of lines 294 to 302 has either not yet sent, or has
    sent its one value and returned. *)
Inductive TaskState : Type :=
| Evaluating
| Finished.

(** The caller is at the select statement of line 303, or has left
    Execute with what it returns. *)
Inductive CallerState : Type :=
| Selecting
| Left (r : Returned).

Record State : Type := mkState {
  results : Chan.chan (list Value);
  errors : Chan.chan error;
  ctxDone : bool;
  task : TaskState;
  caller : CallerState
}.

Inductive Label : Type :=
| Fire          (* ctx.Done() is closed: deadline, cancellation of the parent
                   context, or the deferred cancelFunc *)
| TaskSend      (* errors <- err, or results <- result, into the buffer *)
| TaskHandOff   (* the same send on a channel without buffer, to the
                   caller waiting in the select *)
| SelectDone    (* case <-ctx.Done() *)
| SelectError   (* case err := <-errors *)
| SelectResult. (* case result := <-results *)

Definition callerLabel (l : Label) : bool :=
  match l with
  | SelectDone | SelectError | SelectResult | TaskHandOff => true
  | Fire | TaskSend => false
  end.

Section Steps.

(** What [function.EvaluateMany] returns in the goroutine, what the
    caller does with a received result (lines 309 to 368), and what it
    returns on the Done case (line 305). *)
Variable evaluated : result (list Value).
Variable onResult : list Value -> Returned.
Variable onTimeout : Returned.

(** Lines 291 and 292 with capacity [n]; Execute has [n = 1]. *)
Definition init (n : nat) : State :=
  {| results := Chan.make n;
     errors := Chan.make n;
     ctxDone := false;
     task := Evaluating;
     caller := Selecting |}.

Inductive step : Label -> State -> State -> Prop :=
| step_fire s :
    step Fire s
      {| results := results s; errors := errors s; ctxDone := true;
         task := task s; caller := caller s |}
| step_send_result s values c :
    task s = Evaluating ->
    evaluated = Ok values ->
    Chan.send (results s) values = Some c ->
    step TaskSend s
      {| results := c; errors := errors s; ctxDone := ctxDone s;
         task := Finished; caller := caller s |}
| step_send_error s e c :
    task s = Evaluating ->
    evaluated = Err e ->
    Chan.send (errors s) e = Some c ->
    step TaskSend s
      {| results := results s; errors := c; ctxDone := ctxDone s;
         task := Finished; caller := caller s |}
| step_hand_result s values :
    task s = Evaluating ->
    caller s = Selecting ->
    evaluated = Ok values ->
    Chan.capacity (results s) = 0%nat ->
    step TaskHandOff s
      {| results := results s; errors := errors s; ctxDone := ctxDone s;
         task := Finished; caller := Left (onResult values) |}
| step_hand_error s e :
    task s = Evaluating ->
    caller s = Selecting ->
    evaluated = Err e ->
    Chan.capacity (errors s) = 0%nat ->
    step TaskHandOff s
      {| results := results s; errors := errors s; ctxDone := ctxDone s;
         task := Finished; caller := Left (fail e) |}
| step_select_done s :
    caller s = Selecting ->
    ctxDone s = true ->
    step SelectDone s
      {| results := results s; errors := errors s; ctxDone := ctxDone s;
         task := task s; caller := Left onTimeout |}
| step_select_error s e c :
    caller s = Selecting ->
    Chan.recv (errors s) = Some (e, c) ->
    step SelectError s
      {| results := results s; errors := c; ctxDone := ctxDone s;
         task := task s; caller := Left (fail e) |}
| step_select_result s values c :
    caller s = Selecting ->
    Chan.recv (results s) = Some (values, c) ->
    step SelectResult s
      {| results := c; errors := errors s; ctxDone := ctxDone s;
         task := task s; caller := Left (onResult values) |}.

Definition anyStep (s s' : State) : Prop := exists l, step l s s'.

(** The states of an execution that allocates its channels with
    capacity [n]. *)
Definition reachable (n : nat) (s : State) : Prop := rtc anyStep (init n) s.

(** What holds in every state of an execution with capacity [n]. *)
Record Invariant (n : nat) (s : State) : Prop := mkInvariant {
  inv_results_capacity : Chan.capacity (results s) = n;
  inv_errors_capacity : Chan.capacity (errors s) = n;
  inv_unsent :
    task s = Evaluating ->
    Chan.buffer (results s) = [] /\ Chan.buffer (errors s) = [];
  inv_results_sent : forall values, values ∈ Chan.buffer (results s) -> evaluated = Ok values;
  inv_errors_sent : forall e, e ∈ Chan.buffer (errors s) -> evaluated = Err e;
  inv_returned :
    forall r, caller s = Left r ->
              r = onTimeout \/
              (exists values, evaluated = Ok values /\ r = onResult values) \/
              (exists e, evaluated = Err e /\ r = fail e)
}.

End Steps.

End Race.

(** ** SelectCommand.Execute *)

Module Select.
Section Execution.

(** [api.NewSnappedTimerange], [function.EvaluateMany] and
    [natural_sort.Sort] are in packages that are not under src/. *)
Variable NewSnappedTimerange : Z -> Z -> Z -> result Timerange.
Variable EvaluateMany :
  EvaluationContext -> list Expression -> result (list Value) * EvaluationNotes.
Variable natural_sort : list string -> list string.

Definition defaultLimit : Z := 1000.

(** Lines 203 to 207. *)
Definition slotLimitOf (context : ExecutionContext) : Z :=
  let slotLimit := SlotLimit context in
  if slotLimit =? 0 then defaultLimit else slotLimit.

(** Line 209; [None] is the division panic. *)
Definition smallestResolutionOf (userTimerange : Timerange) (slotLimit : Z)
  : option Duration :=
  div64 (TimerangeDuration userTimerange) (wrap64 (slotLimit - 2)).

Definition registryOf (context : ExecutionContext) : Registry :=
  match ContextRegistry context with
  | Some r => r
  | None => DefaultRegistry
  end.

(** Lines 220 to 229. *)
Definition wideningOf (context : ExecutionContext) (userTimerange : Timerange)
  : WidestMode :=
  {| WidestRegistry := registryOf context;
     Current := Start userTimerange;
     WidestResolution := Resolution userTimerange |}.

(** One call [expression.ExpressionDescription(widening)]. *)
Definition widen (widening : WidestMode) (earliest : Time) (expression : Expression)
  : Time :=
  fold_left (fun cell t => AddTime t cell) (widenTimes expression widening) earliest.

(** Lines 230 to 232. *)
Definition widenAll (widening : WidestMode) (expressions : list Expression)
    (earliest : Time) : Time :=
  fold_left (widen widening) expressions earliest.

(** Lines 217 to 232: the value of [*earliest] after the loop. *)
Definition earliestOf (context : ExecutionContext) (cmd : SelectCommand)
    (userTimerange : Timerange) : Time :=
  widenAll (wideningOf context userTimerange) (Expressions cmd) (Start userTimerange).

(** Lines 234 to 240. *)
Definition widenedTimerangeOf (userTimerange : Timerange) (earliest : Time)
  : Timerange :=
  match NewSnappedTimerange (Z.quot (UnixNano earliest) 1000000)
          (EndMillis userTimerange) (ResolutionMillis userTimerange) with
  | Ok widenedTimerange => widenedTimerange
  | Err _ => userTimerange
  end.

(** Lines 243 to 251: the chosen resolution and the chosen range. *)
Definition negotiate (context : ExecutionContext) (userTimerange : Timerange)
    (smallestResolution : Duration) (widenedTimerange : Timerange)
  : result (Timerange * Duration) :=
  match ChooseResolution (TimeseriesStorageAPI context) widenedTimerange
          smallestResolution with
  | Err e => Err e
  | Ok chosenResolution =>
      match NewSnappedTimerange (StartMillis userTimerange) (EndMillis userTimerange)
              (Z.quot chosenResolution Millisecond) with
      | Err e => Err e
      | Ok chosenTimerange => Ok (chosenTimerange, chosenResolution)
      end
  end.

(** Lines 276 to 289. *)
Definition buildEvaluationContext (context : ExecutionContext) (cmd : SelectCommand)
    (chosenTimerange : Timerange) : EvaluationContext :=
  {| EvalFetchLimit := FetchLimit context;
     EvalStorageAPI := TimeseriesStorageAPI context;
     EvalPredicate := PredicateAll (SelectPredicate cmd) (AdditionalConstraints context);
     EvalSampleMethod := ContextSampleMethod (Context cmd);
     EvalTimerange := chosenTimerange;
     EvalRegistry := registryOf context;
     EvalProfiler := Profiler context |}.

(** Lines 309 to 331. *)
Definition describe (tr : Timerange) (values : list Value)
  : gmap string (list string) :=
  (fun collected => filterAdjacent None (natural_sort collected))
    <$> collectTags tr values.

Definition mismatchMessage (described : string) : string :=
  "query " +:+ described +:+ " does not result in a timeseries or scalar.".

(** One round of the loop of lines 337 to 358, for [cmd.Expressions[i]]
    and [result[i]]. *)
Definition queryResultOf (expression : Expression) (chosenTimerange : Timerange)
    (value : Value) : result QueryResult :=
  match asSeriesListValue value with
  | Some list =>
      Ok {| Query := ExpressionDescription expression StringQueryMode;
            QueryName := ExpressionDescription expression StringNameMode;
            QueryType := "series";
            QuerySeries := Series list;
            QueryTimerange := chosenTimerange;
            QueryScalars := [] |}
  | None =>
      match ToScalarSet value with
      | Ok scalars =>
          Ok {| Query := ExpressionDescription expression StringQueryMode;
                QueryName := ExpressionDescription expression StringNameMode;
                QueryType := "scalars";
                QuerySeries := [];
                QueryTimerange := zeroTimerange;
                QueryScalars := scalars |}
      | Err _ =>
          Err (Errorf (mismatchMessage
                         (ExpressionDescription expression StringQueryFunction)))
      end
  end.

(** Lines 336 to 358, from index [i] on; [cmd.Expressions[i]] panics
    when [i] is out of range. *)
Fixpoint buildBody (expressions : list Expression) (chosenTimerange : Timerange)
    (i : nat) (values : list Value) : exec (result (list QueryResult)) :=
  match values with
  | [] => Ret (Ok [])
  | value :: rest =>
      match expressions !! i with
      | None => Panic index_out_of_range
      | Some expression =>
          match queryResultOf expression chosenTimerange value with
          | Err e => Ret (Err e)
          | Ok q =>
              match buildBody expressions chosenTimerange (S i) rest with
              | Ret (Ok qs) => Ret (Ok (q :: qs))
              | Ret (Err e) => Ret (Err e)
              | Panic msg => Panic msg
              end
          end
      end
  end.

Definition selectMetadata (description : gmap string (list string))
    (notes : EvaluationNotes) (chosenResolution : Duration) : gmap string MetaValue :=
  <["description" := MetaDescription description]>
    (<["notes" := MetaNotes notes]>
       (<["resolution" := MetaResolution chosenResolution]> ∅)).

(** Lines 308 to 368: the case [result := <-results]. *)
Definition assemble (cmd : SelectCommand) (chosenTimerange : Timerange)
    (chosenResolution : Duration) (values : list Value) (notes : EvaluationNotes)
  : Returned :=
  let description := describe chosenTimerange values in
  match buildBody (Expressions cmd) chosenTimerange 0 values with
  | Panic msg => Panic msg
  | Ret (Err e) => fail e
  | Ret (Ok body) =>
      succeed {| Body := SelectBody body;
                 Metadata := Some (selectMetadata description notes chosenResolution) |}
  end.

Definition timeoutError (context : ExecutionContext) : error :=
  LimitError "Timeout while executing the query."
    (DurationValue (Timeout context)) (DurationValue (Timeout context)).

Definition slotLimitError (slots slotLimit : Z) : error :=
  LimitError "Requested number of data points exceeds the configured limit"
    (IntValue slots) (IntValue slotLimit).

(** What the goroutine of lines 294 to 302 computes. *)
Definition evaluation (context : ExecutionContext) (cmd : SelectCommand)
    (chosenTimerange : Timerange) : result (list Value) * EvaluationNotes :=
  EvaluateMany (buildEvaluationContext context cmd chosenTimerange) (Expressions cmd).

(** Lines 303 to 368, given the case that the select statement takes. *)
Definition selectOutcome (choice : SelectCase) (context : ExecutionContext)
    (cmd : SelectCommand) (chosenTimerange : Timerange) (chosenResolution : Duration)
  : Returned :=
  match choice with
  | CtxDone => fail (timeoutError context)
  | TaskFinished =>
      match evaluation context cmd chosenTimerange with
      | (Err e, _) => fail e
      | (Ok values, notes) =>
          assemble cmd chosenTimerange chosenResolution values notes
      end
  end.

(** Lines 243 to 368. *)
Definition afterWidening (choice : SelectCase) (context : ExecutionContext)
    (cmd : SelectCommand) (userTimerange : Timerange) (slotLimit : Z)
    (smallestResolution : Duration) (widenedTimerange : Timerange) : Returned :=
  match negotiate context userTimerange smallestResolution widenedTimerange with
  | Err e => fail e
  | Ok (chosenTimerange, chosenResolution) =>
      if Slots chosenTimerange >? slotLimit
      then fail (slotLimitError (Slots chosenTimerange) slotLimit)
      else selectOutcome choice context cmd chosenTimerange chosenResolution
  end.

(** Lines 198 to 369. *)
Definition Execute (choice : SelectCase) (cmd : SelectCommand)
    (context : ExecutionContext) : Returned :=
  match NewSnappedTimerange (ContextStart (Context cmd)) (ContextEnd (Context cmd))
          (ContextResolution (Context cmd)) with
  | Err e => fail e
  | Ok userTimerange =>
      let slotLimit := slotLimitOf context in
      match smallestResolutionOf userTimerange slotLimit with
      | None => Panic divide_by_zero
      | Some smallestResolution =>
          let earliest := earliestOf context cmd userTimerange in
          let widenedTimerange := widenedTimerangeOf userTimerange earliest in
          afterWidening choice context cmd userTimerange slotLimit
            smallestResolution widenedTimerange
      end
  end.

(** The chosen range and resolution of an execution, when it gets as
    far as line 251: the prefix of [Execute] up to there. *)
Definition chosenOf (cmd : SelectCommand) (context : ExecutionContext)
  : exec (result (Timerange * Duration)) :=
  match NewSnappedTimerange (ContextStart (Context cmd)) (ContextEnd (Context cmd))
          (ContextResolution (Context cmd)) with
  | Err e => Ret (Err e)
  | Ok userTimerange =>
      match smallestResolutionOf userTimerange (slotLimitOf context) with
      | None => Panic divide_by_zero
      | Some smallestResolution =>
          Ret (negotiate context userTimerange smallestResolution
                 (widenedTimerangeOf userTimerange
                    (earliestOf context cmd userTimerange)))
      end
  end.

(** Lines 291 to 368 as a transition system: the channels have
    capacity 1, the goroutine sends what the evaluation returns. *)
Definition raceInit : Race.State := Race.init 1.

Definition raceStep (context : ExecutionContext) (cmd : SelectCommand)
    (chosenTimerange : Timerange) (chosenResolution : Duration)
  : Race.Label -> Race.State -> Race.State -> Prop :=
  Race.step
    (fst (evaluation context cmd chosenTimerange))
    (fun values =>
       assemble cmd chosenTimerange chosenResolution values
         (snd (evaluation context cmd chosenTimerange)))
    (fail (timeoutError context)).

Definition raceReachable (context : ExecutionContext) (cmd : SelectCommand)
    (chosenTimerange : Timerange) (chosenResolution : Duration)
  : Race.State -> Prop :=
  rtc (fun s s' => exists l, raceStep context cmd chosenTimerange chosenResolution l s s')
    raceInit.

End Execution.
End Select.

(** ** Commands as an interface, DescribeMetricsCommand, ProfilingCommand *)

(** What a command returns, together with the heap it leaves. *)
Definition Outcome : Type := exec ((Result * option error) * Heap).

(** The interface [Command]: two methods, Name and Execute.  A command
    may record spans on the profilers it can reach, hence the heap. *)
Record Command : Type := mkCommand {
  CommandName : string;
  CommandExecute : ExecutionContext -> Heap -> Outcome
}.

Module DescribeMetrics.

Record DescribeMetricsCommand : Type := mkDescribeMetricsCommand {
  TagKey : string;
  TagValue : string
}.

(** Lines 167 to 180. *)
Definition Execute (cmd : DescribeMetricsCommand) (context : ExecutionContext)
    (h : Heap) : Outcome :=
  match GetMetricsForTag (MetricMetadataAPI context) (TagKey cmd) (TagValue cmd)
          (Profiler context) h with
  | (Err err, h') => Ret ((emptyResult, Some err), h')
  | (Ok data, h') =>
      Ret (({| Body := MetricsBody data;
               Metadata := Some (<["count" := MetaCount (Z.of_nat (length data))]> ∅) |},
            None), h')
  end.

(** Lines 182 to 184. *)
Definition Name (cmd : DescribeMetricsCommand) : string := "describe metrics".

(** [*DescribeMetricsCommand] as a [Command]. *)
Definition asCommand (cmd : DescribeMetricsCommand) : Command :=
  {| CommandName := Name cmd; CommandExecute := Execute cmd |}.

End DescribeMetrics.

Module Profiling.

(** Modelled from the spec: [inspect.Profiler] (package [inspect] is not
    under src/).  [All] is the list of recorded spans; the function that
    [Record name] returns, once called, adds the span [name]. *)
Definition All (p : ProfilerRef) (h : Heap) : list Profile :=
  default [] (h !! p).

Definition finishRecord (name : string) (p : ProfilerRef) (h : Heap) : Heap :=
  <[p := All p h ++ [name]]> h.

Record ProfilingCommand : Type := mkProfilingCommand {
  CommandProfiler : ProfilerRef;
  Wrapped : Command
}.

(** Lines 388 to 390. *)
Definition Name (cmd : ProfilingCommand) : string := CommandName (Wrapped cmd).

(** Lines 401 to 404: [result.Metadata["profile"] = profiles], after a
    nil map has been replaced by an empty one. *)
Definition attachProfile (profiles : list Profile) (r : Result) : Result :=
  {| Body := Body r;
     Metadata := Some (<["profile" := MetaProfile profiles]> (default ∅ (Metadata r))) |}.

(** Lines 392 to 407.  The deferred call of line 393 runs last on every
    return; a panic of the wrapped command propagates. *)
Definition Execute (cmd : ProfilingCommand) (context : ExecutionContext)
    (h : Heap) : Outcome :=
  let span := Name cmd +:+ ".Execute" in
  let context := withProfiler (Some (CommandProfiler cmd)) context in
  match CommandExecute (Wrapped cmd) context h with
  | Panic msg => Panic msg
  | Ret ((result, Some err), h') =>
      Ret ((emptyResult, Some err), finishRecord span (CommandProfiler cmd) h')
  | Ret ((result, None), h') =>
      let profiles := All (CommandProfiler cmd) h' in
      let result :=
        if (length profiles =? 0)%nat then result else attachProfile profiles result in
      Ret ((result, None), finishRecord span (CommandProfiler cmd) h')
  end.

(** Lines 381 to 386. *)
Definition NewProfilingCommandWithProfiler (command : Command) (profiler : ProfilerRef)
  : Command :=
  let cmd := {| CommandProfiler := profiler; Wrapped := command |} in
  {| CommandName := Name cmd; CommandExecute := Execute cmd |}.

(** The key under which the profile is attached. *)
Definition profileKey : string := "profile".

Definition hasProfile (r : Result) : bool :=
  match Metadata r with
  | Some m => bool_decide (is_Some (m !! profileKey))
  | None => false
  end.

End Profiling.

(** ** A natural-order sort *)

Module NaturalSort.

(** Modelled from the spec: [natural_sort.Sort] (package [natural_sort]
    is not under src/; the specification assumes it as a utility).  In
    natural order a run of digits compares as a number, any other
    character by its code. *)
Inductive Chunk : Type :=
| Digits (n : N)
| Char (c : Ascii.ascii).

Definition isDigit (c : Ascii.ascii) : bool :=
  let n := Ascii.N_of_ascii c in ((48 <=? n) && (n <=? 57))%N.

Definition digitOf (c : Ascii.ascii) : N := (Ascii.N_of_ascii c - 48)%N.

Definition flush (pending : option N) : list Chunk :=
  match pending with
  | Some n => [Digits n]
  | None => []
  end.

Fixpoint chunksFrom (pending : option N) (s : string) : list Chunk :=
  match s with
  | EmptyString => flush pending
  | String c rest =>
      if isDigit c
      then chunksFrom (Some (10 * default 0%N pending + digitOf c)%N) rest
      else flush pending ++ Char c :: chunksFrom None rest
  end.

Definition chunks (s : string) : list Chunk := chunksFrom None s.

Definition chunkCompare (a b : Chunk) : comparison :=
  match a, b with
  | Digits m, Digits n => (m ?= n)%N
  | Digits _, Char _ => Lt
  | Char _, Digits _ => Gt
  | Char c, Char d => (Ascii.N_of_ascii c ?= Ascii.N_of_ascii d)%N
  end.

Fixpoint chunksLe (a b : list Chunk) : bool :=
  match a, b with
  | [], _ => true
  | _ :: _, [] => false
  | x :: a', y :: b' =>
      match chunkCompare x y with
      | Lt => true
      | Gt => false
      | Eq => chunksLe a' b'
      end
  end.

Definition naturalLe (a b : string) : bool := chunksLe (chunks a) (chunks b).

Fixpoint insertSorted (x : string) (sorted : list string) : list string :=
  match sorted with
  | [] => [x]
  | y :: rest => if naturalLe x y then x :: y :: rest else y :: insertSorted x rest
  end.

Definition Sort (values : list string) : list string :=
  fold_right insertSorted [] values.

End NaturalSort.

(** ** Concrete collaborators, used to run the embedding *)

Module Example.

(** A storage backend that always advises the same resolution. *)
Definition backend (chosenResolution : Duration) : StorageAPI :=
  {| ChooseResolution := fun _ _ => Ok chosenResolution |}.

(** A storage backend that advises the smallest resolution it is asked
    for, but never less than one second. *)
Definition obligingBackend : StorageAPI :=
  {| ChooseResolution := fun _ smallest => Ok (Z.max smallest (1000 * Millisecond)) |}.

Definition metadataBackend (answer : result (list string)) : MetricAPI :=
  {| GetMetricsForTag := fun _ _ _ h => (answer, h) |}.

Definition context (storage : StorageAPI) (slotLimit : Z) (timeout : Duration)
  : ExecutionContext :=
  {| TimeseriesStorageAPI := storage;
     MetricMetadataAPI := metadataBackend (Ok []);
     FetchLimit := 100;
     Timeout := timeout;
     ContextRegistry := None;
     SlotLimit := slotLimit;
     Profiler := None;
     AdditionalConstraints := None |}.

(** An expression that asks for no lookback and tells its query text
    and name to the two string modes only. *)
Definition metric (query name : string) : Expression :=
  {| ExpressionDescription :=
       fun mode =>
         match mode with
         | StringQueryMode => query
         | StringNameMode => name
         | StringQueryFunction => ""
         end;
     widenTimes := fun _ => [] |}.

(** An expression over a moving window: it asks for [window] before the
    current start. *)
Definition moving (query : string) (window : Duration) : Expression :=
  {| ExpressionDescription :=
       fun mode =>
         match mode with
         | StringQueryMode => query
         | StringNameMode => query
         | StringQueryFunction => ""
         end;
     widenTimes := fun widening => [Current widening - window] |}.

Definition select (start end_ resolution : Z) (expressions : list Expression)
  : SelectCommand :=
  {| SelectPredicate := fun _ => true;
     Expressions := expressions;
     Context := {| ContextStart := start; ContextEnd := end_;
                   ContextResolution := resolution; ContextSampleMethod := 0%nat |} |}.

Definition seriesValue (l : SeriesList) : Value :=
  {| asSeriesListValue := Some l;
     ToSeriesList := fun _ => Ok l;
     ToScalarSet := Err (ExternalError "cannot convert a series list to scalars") |}.

Definition scalarsValue (scalars : list TaggedScalar) : Value :=
  {| asSeriesListValue := None;
     ToSeriesList := fun _ => Err (ExternalError "cannot convert scalars to a series list");
     ToScalarSet := Ok scalars |}.

(** A value of an intermediate type, such as a string or a duration. *)
Definition opaqueValue : Value :=
  {| asSeriesListValue := None;
     ToSeriesList := fun _ => Err (ExternalError "cannot convert to a series list");
     ToScalarSet := Err (ExternalError "cannot convert to scalars") |}.

Definition tagged (key value : string) : Timeseries :=
  {| Values := []; SeriesTagSet := {[ key := value ]} |}.

(** An evaluation that produces the given values and notes. *)
Definition evaluateTo (values : list Value) (notes : EvaluationNotes)
  : EvaluationContext -> list Expression -> result (list Value) * EvaluationNotes :=
  fun _ _ => (Ok values, notes).

Definition evaluateFails (e : error)
  : EvaluationContext -> list Expression -> result (list Value) * EvaluationNotes :=
  fun _ _ => (Err e, []).

(** Scenario A of the specification: start 0, end 9000, resolution
    1000 ms, slot limit 10, and a backend that advises 2000 ms. *)
Definition scenarioA : SelectCommand := select 0 9000 1000 [metric "cpu" "cpu"].
Definition contextA : ExecutionContext := context (backend (2000 * Millisecond)) 10 0.

(** Scenario B: the same range with slot limit 3 and a backend that
    advises 1000 ms. *)
Definition contextB : ExecutionContext := context (backend (1000 * Millisecond)) 3 0.

Definition contextNegative : ExecutionContext :=
  context (backend (1000 * Millisecond)) (-1) 0.
Definition contextTwo : ExecutionContext := context (backend (1000 * Millisecond)) 2 0.
Definition contextUnset : ExecutionContext := context (backend (1000 * Millisecond)) 0 0.

(** Scenario D: two expressions, series tagged host a and host b. *)
Definition twoHosts : list Value :=
  [seriesValue (mkSeriesList [tagged "host" "a"]);
   seriesValue (mkSeriesList [tagged "host" "b"])].
Definition scenarioD : SelectCommand :=
  select 0 9000 1000 [metric "cpu[host=a]" "cpu"; metric "cpu[host=b]" "cpu"].

(** A window of about 295 years, more nanoseconds than [UnixNano] can
    count back from 1970. *)
Definition centuries : Duration := 9300000000000000000.
Definition longLookback : SelectCommand :=
  select 0 9000 1000 [moving "movingaverage(cpu, 295y)" centuries].

(** A request that starts in the year 2286. *)
Definition farFuture : SelectCommand := select (10 ^ 13) (10 ^ 13 + 9000) 1000 [].

(** A context whose metadata backend is down. *)
Definition contextBackendDown : ExecutionContext :=
  {| TimeseriesStorageAPI := backend (1000 * Millisecond);
     MetricMetadataAPI := metadataBackend (Err (ExternalError "metadata backend unavailable"));
     FetchLimit := 100;
     Timeout := 0;
     ContextRegistry := None;
     SlotLimit := 0;
     Profiler := None;
     AdditionalConstraints := None |}.

Definition describeHostA : DescribeMetrics.DescribeMetricsCommand :=
  {| DescribeMetrics.TagKey := "host"; DescribeMetrics.TagValue := "a" |}.

(** A command that hands back a filled Result together with an error. *)
Definition interrupted : Command :=
  {| CommandName := "interrupted";
     CommandExecute :=
       fun _ h =>
         Ret (({| Body := MetricsBody ["cpu"];
                  Metadata := Some {[ "profile" := MetaProfile ["stale"] ]} |},
               Some (ExternalError "interrupted")), h) |}.

(** A heap in which profiler 1 has already recorded one span. *)
Definition heapWithSpan : Heap := {[ 1%nat := ["parse"] ]}.

(** Scenario C: a timeout of 50 ms. *)
Definition context50ms : ExecutionContext :=
  context (backend (2000 * Millisecond)) 10 (50 * Millisecond).


(** The race after the caller has returned on the Done case. *)
Definition timedOut : Race.State :=
  {| Race.results := Chan.make 1;
     Race.errors := Chan.make 1;
     Race.ctxDone := true;
     Race.task := Race.Evaluating;
     Race.caller := Race.Left (fail (Select.timeoutError context50ms)) |}.

End Example.

(** ** What the description map is meant to hold *)

(** The values of one tag key over all series of all results that convert
    to a series list, in the order of the results and of their series. *)
Definition seriesTagValues (key : string) (l : SeriesList) : list string :=
  Series l ≫= (fun series => option_list (SeriesTagSet series !! key)).

Definition tagValues (key : string) (tr : Timerange) (values : list Value)
  : list string :=
  values ≫= (fun value =>
               match ToSeriesList value tr with
               | Err _ => []
               | Ok l => seriesTagValues key l
               end).

(** A map entry after more values have been appended to it. *)
Definition extended (entry : option (list string)) (more : list string)
  : option (list string) :=
  match more with
  | [] => entry
  | _ :: _ => Some (default [] entry ++ more)
  end.

(** A value is refused when it is neither a SeriesListValue nor
    convertible to scalars. *)
Definition refused (value : Value) : Prop :=
  asSeriesListValue value = None /\ exists e, ToScalarSet value = Err e.

(** ** The order of metric keys *)

Module MetricKeys.

(** Modelled from the spec: the order of [api.MetricKeys] (package [api]
    is not under src/), which section 4.6 gives as lexicographic; on Go
    strings that is the order of the bytes.  [Sort] is what
    [sort.Sort(api.MetricKeys(keys))] leaves in the slice: the keys in
    that order. *)
Definition LessEq (a b : string) : bool := String.leb a b.

Fixpoint insert (key : string) (sorted : list string) : list string :=
  match sorted with
  | [] => [key]
  | first :: rest =>
      if LessEq key first then key :: first :: rest else first :: insert key rest
  end.

Definition Sort (keys : list string) : list string := fold_right insert [] keys.

End MetricKeys.

(** ** DescribeAllCommand *)

Module DescribeAll.

(** [Matcher] is a [*regexp.Regexp]; Execute only calls its method
    MatchString. *)
Record DescribeAllCommand : Type := mkDescribeAllCommand {
  MatchString : string -> bool
}.

Section Execution.

(** The method GetAllMetrics of [metadata.MetricAPI], as a function of
    the API value it is called on; it is handed the profiler of the
    context and may record on it. *)
Variable GetAllMetrics :
  MetricAPI -> option ProfilerRef -> Heap -> result (list string) * Heap.

(** Lines 140 to 160. *)
Definition Execute (cmd : DescribeAllCommand) (context : ExecutionContext) (h : Heap)
  : Outcome :=
  match GetAllMetrics (MetricMetadataAPI context) (Profiler context) h with
  | (Ok result, h') =>
      let filtered := List.filter (MatchString cmd) result in
      let filtered := MetricKeys.Sort filtered in
      Ret (({| Body := MetricsBody filtered;
               Metadata := Some (<["count" := MetaCount (Z.of_nat (length filtered))]> ∅) |},
            None), h')
  | (Err err, h') => Ret ((emptyResult, Some err), h')
  end.

(** Lines 162 to 164. *)
Definition Name (cmd : DescribeAllCommand) : string := "describe all".

Definition asCommand (cmd : DescribeAllCommand) : Command :=
  {| CommandName := Name cmd; CommandExecute := Execute cmd |}.

End Execution.

End DescribeAll.

(** ** DescribeCommand *)

Module Describe.

Record DescribeCommand : Type := mkDescribeCommand {
  MetricName : string;
  DescribePredicate : Predicate
}.

(** [keyValueSets[key][value] = true], after a missing set for [key] has
    been made (lines 115 to 118).  The inner Go map only ever holds
    [true]: it is the set of its keys. *)
Definition addValue (sets : gmap string (gset string)) (key value : string)
  : gmap string (gset string) :=
  <[key := {[value]} ∪ default ∅ (sets !! key)]> sets.

(** Lines 114 to 119. *)
Definition addTagSet (sets : gmap string (gset string)) (tagset : TagSet)
  : gmap string (gset string) :=
  map_fold (fun key value s => addValue s key value) sets tagset.

(** Lines 110 to 121. *)
Definition keyValueSets (predicate : Predicate) (tagsets : list TagSet)
  : gmap string (gset string) :=
  fold_left (fun sets tagset => if predicate tagset then addTagSet sets tagset else sets)
    tagsets ∅.

Section Execution.

(** The method GetAllTags of [metadata.MetricAPI], as a function of the
    API value it is called on; [natural_sort.Sort]; and the order in
    which [for value := range set] visits a set, which Go leaves open. *)
Variable GetAllTags :
  MetricAPI -> string -> option ProfilerRef -> Heap -> result (list TagSet) * Heap.
Variable natural_sort : list string -> list string.
Variable rangeOrder : gset string -> list string.

(** Lines 122 to 131. *)
Definition keyValueLists (sets : gmap string (gset string)) : gmap string (list string) :=
  (fun set => natural_sort (rangeOrder set)) <$> sets.

(** Lines 96 to 133.  [Ok lists] stands for the return of line 132,
    [Result{Body: lists}] with a nil error; [Err err] for the return of
    line 105, [Result{}] with [err]. *)
Definition Execute (cmd : DescribeCommand) (context : ExecutionContext) (h : Heap)
  : result (gmap string (list string)) * Heap :=
  match GetAllTags (MetricMetadataAPI context) (MetricName cmd) (Profiler context) h with
  | (Err err, h') => (Err err, h')
  | (Ok tagsets, h') =>
      let predicate :=
        PredicateAll (DescribePredicate cmd) (AdditionalConstraints context) in
      (Ok (keyValueLists (keyValueSets predicate tagsets)), h')
  end.

End Execution.

(** Lines 135 to 137. *)
Definition Name (cmd : DescribeCommand) : string := "describe".

End Describe.

(** ** What the sets of a describe are meant to hold *)

(** The values that the accepted tag sets give for one key. *)
Definition acceptedValues (key : string) (predicate : Predicate) (tagsets : list TagSet)
  : gset string :=
  list_to_set
    (tagsets ≫= (fun tagset =>
                   if predicate tagset then option_list (tagset !! key) else [])).

(** A map entry after the values of [more] have been added to its set. *)
Definition enlarged (entry : option (gset string)) (more : gset string)
  : option (gset string) :=
  if decide (more = ∅) then entry else Some (more ∪ default ∅ entry).

(** ** More concrete collaborators *)

Module Sample.

(** An evaluation that hands back two values for the one expression of
    scenario A. *)
Definition surplus : list Value := [Example.scalarsValue []; Example.scalarsValue []].

(** What scenario D returns under a slot limit of 10 and a backend that
    advises 2000 ms. *)
Definition resultD : Result :=
  {| Body :=
       SelectBody
         [{| Query := "cpu[host=a]"; QueryName := "cpu"; QueryType := "series";
             QuerySeries := [Example.tagged "host" "a"];
             QueryTimerange := mkTimerange 0 8000 2000;
             QueryScalars := [] |};
          {| Query := "cpu[host=b]"; QueryName := "cpu"; QueryType := "series";
             QuerySeries := [Example.tagged "host" "b"];
             QueryTimerange := mkTimerange 0 8000 2000;
             QueryScalars := [] |}];
     Metadata :=
       Some (Select.selectMetadata {[ "host" := ["a"; "b"] ]} [] (2000 * Millisecond)) |}.

(** Three series over two hosts, host b twice. *)
Definition repeatedHosts : list Value :=
  [Example.seriesValue (mkSeriesList [Example.tagged "host" "b"]);
   Example.seriesValue
     (mkSeriesList [Example.tagged "host" "a"; Example.tagged "host" "b"])].

(** A metadata backend with three metrics and three tag sets. *)
Definition allMetrics : list string := ["cpu.user"; "mem.free"; "cpu.idle"].

Definition getAllMetrics (metrics : list string)
  : MetricAPI -> option ProfilerRef -> Heap -> result (list string) * Heap :=
  fun _ _ h => (Ok metrics, h).

Definition cpuOnly : DescribeAll.DescribeAllCommand :=
  {| DescribeAll.MatchString := String.prefix "cpu" |}.

Definition allTags : list TagSet :=
  [ {[ "host" := "b" ]};
    {[ "host" := "a"; "dc" := "west" ]};
    {[ "host" := "b"; "dc" := "east" ]} ].

Definition getAllTags (tagsets : list TagSet)
  : MetricAPI -> string -> option ProfilerRef -> Heap -> result (list TagSet) * Heap :=
  fun _ _ _ h => (Ok tagsets, h).

(** Describe the tag sets that have a data centre. *)
Definition describeCpu : Describe.DescribeCommand :=
  {| Describe.MetricName := "cpu.user";
     Describe.DescribePredicate := fun tagset => bool_decide (is_Some (tagset !! "dc")) |}.

(** The race after the goroutine has sent the values of scenario D. *)
Definition sent : Race.State :=
  {| Race.results := Chan.mkChan 1 [Example.twoHosts];
     Race.errors := Chan.make 1;
     Race.ctxDone := false;
     Race.task := Race.Finished;
     Race.caller := Race.Selecting |}.

End Sample.

(** * Properties *)

(** ** Go integers *)

Lemma wrap64_fits z : fits64 z -> wrap64 z = z.
Proof.
  unfold fits64, MinInt64, MaxInt64, wrap64. intros Hz.
  rewrite Z.mod_small; lia.
Qed.

Lemma wrap64_range z : fits64 (wrap64 z).
Proof.
  unfold fits64, MinInt64, MaxInt64, wrap64.
  pose proof (Z.mod_pos_bound (z + 2 ^ 63) (2 ^ 64) ltac:(lia)). lia.
Qed.

Lemma div64_by_zero x : div64 x 0 = None.
Proof. reflexivity. Qed.

Lemma div64_nonzero x y : y <> 0 -> div64 x y = Some (wrap64 (Z.quot x y)).
Proof. unfold div64. intros Hy. destruct (Z.eqb_spec y 0); [lia | reflexivity]. Qed.


(** ** SelectCommand.Execute: the slot limit *)

Section SelectProperties.

Variable NewSnappedTimerange : Z -> Z -> Z -> result Timerange.
Variable EvaluateMany :
  EvaluationContext -> list Expression -> result (list Value) * EvaluationNotes.
Variable natural_sort : list string -> list string.

Local Abbreviation Execute := (Select.Execute NewSnappedTimerange EvaluateMany natural_sort).
Local Abbreviation chosenOf := (Select.chosenOf NewSnappedTimerange).
Local Abbreviation selectOutcome := (Select.selectOutcome EvaluateMany natural_sort).
Local Abbreviation afterWidening :=
  (Select.afterWidening NewSnappedTimerange EvaluateMany natural_sort).
Local Abbreviation userSnap cmd :=
  (NewSnappedTimerange (ContextStart (Context cmd)) (ContextEnd (Context cmd))
     (ContextResolution (Context cmd))).

(** Execute is its negotiation prefix followed by the slot check and the
    select statement. *)
Lemma Execute_after_chosen choice cmd context :
  Execute choice cmd context =
  match chosenOf cmd context with
  | Panic msg => Panic msg
  | Ret (Err e) => fail e
  | Ret (Ok (chosenTimerange, chosenResolution)) =>
      if Slots chosenTimerange >? Select.slotLimitOf context
      then fail (Select.slotLimitError (Slots chosenTimerange) (Select.slotLimitOf context))
      else selectOutcome choice context cmd chosenTimerange chosenResolution
  end.
Proof.
  unfold Select.Execute, Select.chosenOf, Select.afterWidening.
  destruct (userSnap cmd) as [userTimerange | e]; [| reflexivity].
  destruct (Select.smallestResolutionOf _ _) as [smallest |]; [| reflexivity].
  destruct (Select.negotiate _ _ _ _ _) as [[ct cr] | e]; reflexivity.
Qed.

Lemma fail_not_succeed e r : fail e <> succeed r.
Proof. unfold fail, succeed. congruence. Qed.

(** Whatever the select statement does, it runs only below the limit. *)
Lemma Execute_succeeds_chosen choice cmd context r :
  Execute choice cmd context = succeed r ->
  exists chosenTimerange chosenResolution,
    chosenOf cmd context = Ret (Ok (chosenTimerange, chosenResolution)) /\
    Slots chosenTimerange <= Select.slotLimitOf context /\
    selectOutcome choice context cmd chosenTimerange chosenResolution = succeed r.
Proof.
  rewrite Execute_after_chosen.
  destruct (chosenOf cmd context) as [[[ct cr] | e] | msg].
  - destruct (Z.gtb_spec (Slots ct) (Select.slotLimitOf context)) as [Hgt | Hle].
    + intros H. exfalso. exact (fail_not_succeed _ _ H).
    + intros H. exists ct, cr. repeat split; [lia | exact H].
  - intros H. exfalso. exact (fail_not_succeed _ _ H).
  - unfold succeed. congruence.
Qed.

(** C1: when the range snapped at the resolution the backend chose has
    more slots than the effective slot limit, Execute fails with a
    LimitError that carries that slot count and the limit; and when
    Execute succeeds, the chosen range has at most slot-limit slots. *)
Theorem select_slot_limit choice cmd context :
  (forall chosenTimerange chosenResolution,
      chosenOf cmd context = Ret (Ok (chosenTimerange, chosenResolution)) ->
      Slots chosenTimerange > Select.slotLimitOf context ->
      Execute choice cmd context =
      fail (LimitError "Requested number of data points exceeds the configured limit"
              (IntValue (Slots chosenTimerange))
              (IntValue (Select.slotLimitOf context))))
  /\
  (forall r,
      Execute choice cmd context = succeed r ->
      exists chosenTimerange chosenResolution,
        chosenOf cmd context = Ret (Ok (chosenTimerange, chosenResolution)) /\
        Slots chosenTimerange <= Select.slotLimitOf context).
Proof.
  split.
  - intros ct cr Hchosen Hslots. rewrite Execute_after_chosen, Hchosen.
    destruct (Z.gtb_spec (Slots ct) (Select.slotLimitOf context)); [reflexivity | lia].
  - intros r Hr. destruct (Execute_succeeds_chosen _ _ _ _ Hr) as (ct & cr & Hc & Hs & _).
    eauto.
Qed.

(** C10: with SlotLimit 2 and a request that snaps, the divisor
    [slotLimit - 2] of line 209 is zero and Execute panics with a
    division by zero; it returns neither a Result nor an error. *)
Theorem select_slot_limit_two_panics choice cmd context userTimerange :
  SlotLimit context = 2 ->
  userSnap cmd = Ok userTimerange ->
  wrap64 (Select.slotLimitOf context - 2) = 0 /\
  Select.smallestResolutionOf userTimerange (Select.slotLimitOf context) = None /\
  Execute choice cmd context = Panic divide_by_zero.
Proof.
  intros Hlimit Hsnap.
  assert (Hsl : Select.slotLimitOf context = 2).
  { unfold Select.slotLimitOf. rewrite Hlimit. reflexivity. }
  assert (Hsmall : Select.smallestResolutionOf userTimerange (Select.slotLimitOf context) = None).
  { unfold Select.smallestResolutionOf. rewrite Hsl. reflexivity. }
  repeat split.
  - rewrite Hsl. reflexivity.
  - exact Hsmall.
  - unfold Select.Execute. rewrite Hsnap. cbv zeta. rewrite Hsmall. reflexivity.
Qed.

(** Execute reads SlotLimit only through [slotLimitOf]. *)
Lemma Execute_same_slot_limit choice cmd context n :
  Select.slotLimitOf context = Select.slotLimitOf (withSlotLimit n context) ->
  Execute choice cmd context = Execute choice cmd (withSlotLimit n context).
Proof.
  intros Heq. unfold Select.Execute. rewrite <- Heq. reflexivity.
Qed.

(** C4, as the code has it: a SlotLimit equal to 0 is replaced by 1000,
    both in the smallest resolution (divisor 998) and in the slot check;
    any other SlotLimit, negative ones included, is used as configured. *)
Theorem select_default_slot_limit choice cmd context :
  (SlotLimit context = 0 ->
   Select.slotLimitOf context = 1000 /\
   (forall userTimerange,
       Select.smallestResolutionOf userTimerange (Select.slotLimitOf context) =
       div64 (TimerangeDuration userTimerange) 998) /\
   Execute choice cmd context = Execute choice cmd (withSlotLimit 1000 context))
  /\
  (SlotLimit context <> 0 -> Select.slotLimitOf context = SlotLimit context).
Proof.
  split.
  - intros Hzero.
    assert (Hsl : Select.slotLimitOf context = 1000).
    { unfold Select.slotLimitOf. rewrite Hzero. reflexivity. }
    repeat split.
    + exact Hsl.
    + intros u. unfold Select.smallestResolutionOf. rewrite Hsl. reflexivity.
    + apply Execute_same_slot_limit. rewrite Hsl. reflexivity.
  - intros Hnz. unfold Select.slotLimitOf. cbv zeta.
    destruct (Z.eqb_spec (SlotLimit context) 0); [contradiction | reflexivity].
Qed.

(** C3: when the widened range does not snap, the widened range is the
    user's range and Execute goes on from there exactly as lines 243 to
    368 do on the user's range; the error of the failed snap is dropped. *)
Theorem select_widening_failure_falls_back
    choice cmd context userTimerange smallestResolution e :
  userSnap cmd = Ok userTimerange ->
  Select.smallestResolutionOf userTimerange (Select.slotLimitOf context)
    = Some smallestResolution ->
  NewSnappedTimerange
    (Z.quot (UnixNano (Select.earliestOf context cmd userTimerange)) 1000000)
    (EndMillis userTimerange) (ResolutionMillis userTimerange) = Err e ->
  Select.widenedTimerangeOf NewSnappedTimerange userTimerange
    (Select.earliestOf context cmd userTimerange) = userTimerange
  /\
  Execute choice cmd context =
  afterWidening choice context cmd userTimerange (Select.slotLimitOf context)
    smallestResolution userTimerange.
Proof.
  intros Hsnap Hsmall Hwide.
  assert (Hw : Select.widenedTimerangeOf NewSnappedTimerange userTimerange
                 (Select.earliestOf context cmd userTimerange) = userTimerange).
  { unfold Select.widenedTimerangeOf. rewrite Hwide. reflexivity. }
  split; [exact Hw |].
  unfold Select.Execute. rewrite Hsnap. cbv zeta. rewrite Hsmall, Hw. reflexivity.
Qed.

End SelectProperties.

(** *** The slot limit on concrete requests *)

(** Scenario B fails with LimitError(10, 3); scenario A succeeds with 5
    slots, within its limit of 10. *)
Lemma select_slot_limit_witness :
  Select.Execute gridSnappedTimerange (Example.evaluateTo Example.twoHosts [])
    NaturalSort.Sort TaskFinished Example.scenarioA Example.contextB
  = fail (LimitError "Requested number of data points exceeds the configured limit"
            (IntValue 10) (IntValue 3))
  /\
  exists chosenTimerange chosenResolution,
    Select.chosenOf gridSnappedTimerange Example.scenarioA Example.contextA
    = Ret (Ok (chosenTimerange, chosenResolution)) /\
    Slots chosenTimerange <= 10.
Proof.
  split.
  - apply (proj1 (select_slot_limit gridSnappedTimerange
                    (Example.evaluateTo Example.twoHosts []) NaturalSort.Sort
                    TaskFinished Example.scenarioA Example.contextB)
             (mkTimerange 0 9000 1000) (1000 * Millisecond)).
    + reflexivity.
    + reflexivity.
  - apply (proj2 (select_slot_limit gridSnappedTimerange
                    (Example.evaluateTo [Example.scalarsValue []] [])
                    NaturalSort.Sort
                    TaskFinished Example.scenarioA Example.contextA)
             {| Body :=
                  SelectBody
                    [{| Query := "cpu"; QueryName := "cpu"; QueryType := "scalars";
                        QuerySeries := []; QueryTimerange := zeroTimerange;
                        QueryScalars := [] |}];
                Metadata :=
                  Some (Select.selectMetadata ∅ [] (2000 * Millisecond)) |}).
    reflexivity.
Defined.

Lemma select_slot_limit_two_panics_witness :
  wrap64 (Select.slotLimitOf Example.contextTwo - 2) = 0 /\
  Select.smallestResolutionOf (mkTimerange 0 9000 1000)
    (Select.slotLimitOf Example.contextTwo) = None /\
  Select.Execute gridSnappedTimerange (Example.evaluateTo Example.twoHosts [])
    NaturalSort.Sort TaskFinished Example.scenarioA Example.contextTwo
  = Panic divide_by_zero.
Proof.
  apply (select_slot_limit_two_panics gridSnappedTimerange
           (Example.evaluateTo Example.twoHosts []) NaturalSort.Sort
           TaskFinished Example.scenarioA Example.contextTwo (mkTimerange 0 9000 1000)).
  - reflexivity.
  - reflexivity.
Defined.

(** C4 as stated fails at SlotLimit -1: the limit in force is -1, the
    divisor of the smallest resolution is -3, and scenario A, which
    passes under a limit of 1000, is refused with LimitError(10, -1). *)
Lemma select_negative_slot_limit_not_defaulted :
  SlotLimit Example.contextNegative <= 0 /\
  Select.slotLimitOf Example.contextNegative = -1 /\
  Select.smallestResolutionOf (mkTimerange 0 9000 1000)
    (Select.slotLimitOf Example.contextNegative) = Some (-3000000000) /\
  Select.smallestResolutionOf (mkTimerange 0 9000 1000) 1000 = Some 9018036 /\
  Select.Execute gridSnappedTimerange (Example.evaluateTo [Example.scalarsValue []] [])
    NaturalSort.Sort TaskFinished Example.scenarioA Example.contextNegative
  = fail (LimitError "Requested number of data points exceeds the configured limit"
            (IntValue 10) (IntValue (-1))) /\
  Select.Execute gridSnappedTimerange (Example.evaluateTo [Example.scalarsValue []] [])
    NaturalSort.Sort TaskFinished Example.scenarioA Example.contextNegative
  <>
  Select.Execute gridSnappedTimerange (Example.evaluateTo [Example.scalarsValue []] [])
    NaturalSort.Sort TaskFinished Example.scenarioA
    (withSlotLimit 1000 Example.contextNegative).
Proof.
  repeat split; try reflexivity.
  - unfold Example.contextNegative, Example.context. simpl. lia.
  - intros H. apply (f_equal (fun o => match o with
                                       | Ret (_, Some _) => true
                                       | _ => false
                                       end)) in H.
    vm_compute in H. discriminate H.
Qed.

Lemma select_default_slot_limit_witness :
  (Select.slotLimitOf Example.contextUnset = 1000 /\
   (forall userTimerange,
       Select.smallestResolutionOf userTimerange (Select.slotLimitOf Example.contextUnset) =
       div64 (TimerangeDuration userTimerange) 998) /\
   Select.Execute gridSnappedTimerange (Example.evaluateTo Example.twoHosts [])
     NaturalSort.Sort TaskFinished Example.scenarioA Example.contextUnset
   = Select.Execute gridSnappedTimerange (Example.evaluateTo Example.twoHosts [])
       NaturalSort.Sort TaskFinished Example.scenarioA
       (withSlotLimit 1000 Example.contextUnset))
  /\ Select.slotLimitOf Example.contextNegative = SlotLimit Example.contextNegative.
Proof.
  split.
  - apply (proj1 (select_default_slot_limit gridSnappedTimerange
                    (Example.evaluateTo Example.twoHosts []) NaturalSort.Sort
                    TaskFinished Example.scenarioA Example.contextUnset)).
    reflexivity.
  - apply (proj2 (select_default_slot_limit gridSnappedTimerange
                    (Example.evaluateTo Example.twoHosts []) NaturalSort.Sort
                    TaskFinished Example.scenarioA Example.contextNegative)).
    unfold Example.contextNegative, Example.context. simpl. lia.
Defined.

(** A lookback of 295 years from 1970 leaves the range of [UnixNano]:
    the widened start wraps to the year 2259, after the end, the snap is
    refused and the query goes on with the user's range. *)
Lemma select_widening_failure_falls_back_witness :
  Select.widenedTimerangeOf gridSnappedTimerange (mkTimerange 0 9000 1000)
    (Select.earliestOf Example.contextA Example.longLookback (mkTimerange 0 9000 1000))
  = mkTimerange 0 9000 1000
  /\
  Select.Execute gridSnappedTimerange (Example.evaluateTo Example.twoHosts [])
    NaturalSort.Sort TaskFinished Example.longLookback Example.contextA
  = Select.afterWidening gridSnappedTimerange (Example.evaluateTo Example.twoHosts [])
      NaturalSort.Sort TaskFinished Example.contextA Example.longLookback
      (mkTimerange 0 9000 1000) 10 1125000000 (mkTimerange 0 9000 1000).
Proof.
  apply (select_widening_failure_falls_back gridSnappedTimerange
           (Example.evaluateTo Example.twoHosts []) NaturalSort.Sort
           TaskFinished Example.longLookback Example.contextA
           (mkTimerange 0 9000 1000) 1125000000 (ExternalError "invalid range")).
  - reflexivity.
  - reflexivity.
  - reflexivity.
Defined.

(** ** SelectCommand.Execute: the widening pass *)

Lemma AddTime_le t earliest : AddTime t earliest <= earliest.
Proof. unfold AddTime. destruct (Z.ltb_spec t earliest); lia. Qed.

Lemma AddTime_min t earliest : AddTime t earliest = Z.min t earliest.
Proof. unfold AddTime. destruct (Z.ltb_spec t earliest); lia. Qed.

Lemma widen_le widening expression earliest :
  Select.widen widening earliest expression <= earliest.
Proof.
  unfold Select.widen. generalize (widenTimes expression widening) as times.
  intros times. revert earliest.
  induction times as [| t times IH]; intros earliest; simpl.
  - lia.
  - specialize (IH (AddTime t earliest)). pose proof (AddTime_le t earliest). lia.
Qed.

Lemma widenAll_le widening expressions earliest :
  Select.widenAll widening expressions earliest <= earliest.
Proof.
  unfold Select.widenAll. revert earliest.
  induction expressions as [| expression expressions IH]; intros earliest; simpl.
  - lia.
  - specialize (IH (Select.widen widening earliest expression)).
    pose proof (widen_le widening expression earliest). lia.
Qed.

(** The pass does not depend on the order of the requests of one
    expression: only the minimum survives. *)
Lemma widen_min widening expression earliest :
  Select.widen widening earliest expression =
  fold_right Z.min earliest (widenTimes expression widening).
Proof.
  unfold Select.widen. generalize (widenTimes expression widening) as times.
  intros times. revert earliest.
  induction times as [| t times IH]; intros earliest; simpl.
  - reflexivity.
  - rewrite IH, AddTime_min. clear IH. revert t earliest.
    induction times as [| u times IH]; intros t earliest; simpl.
    + reflexivity.
    + rewrite IH. lia.
Qed.

Lemma UnixNano_Start_millis tr :
  fits64 (Start tr) -> Z.quot (UnixNano (Start tr)) 1000000 = StartMillis tr.
Proof.
  intros Hfits. unfold UnixNano. rewrite (wrap64_fits _ Hfits).
  unfold Start, StartMillis, Millisecond. apply Z.quot_mul. lia.
Qed.

Section WideningProperties.

Variable NewSnappedTimerange : Z -> Z -> Z -> result Timerange.

(** C6, as the code has it: after the widening pass [earliest] is at most
    the start of the user's range; with no expression it is that start,
    and then the widened range is the user's range when that start, in
    nanoseconds, fits an int64 and snapping the user's range again gives
    it back. *)
Theorem select_widening_lowers_start context cmd userTimerange :
  Select.earliestOf context cmd userTimerange <= Start userTimerange
  /\
  (Expressions cmd = [] ->
   Select.earliestOf context cmd userTimerange = Start userTimerange /\
   (fits64 (Start userTimerange) ->
    (forall again,
        NewSnappedTimerange (StartMillis userTimerange) (EndMillis userTimerange)
          (ResolutionMillis userTimerange) = Ok again ->
        again = userTimerange) ->
    Select.widenedTimerangeOf NewSnappedTimerange userTimerange
      (Select.earliestOf context cmd userTimerange) = userTimerange)).
Proof.
  split.
  - apply widenAll_le.
  - intros Hempty.
    assert (Hearliest : Select.earliestOf context cmd userTimerange = Start userTimerange).
    { unfold Select.earliestOf. rewrite Hempty. reflexivity. }
    split; [exact Hearliest |].
    intros Hfits Hagain. unfold Select.widenedTimerangeOf.
    rewrite Hearliest, (UnixNano_Start_millis _ Hfits).
    destruct (NewSnappedTimerange _ _ _) as [again | e] eqn:Hsnap.
    + apply Hagain. reflexivity.
    + reflexivity.
Qed.

End WideningProperties.

Lemma select_widening_lowers_start_witness :
  Select.earliestOf Example.contextA (Example.select 0 9000 1000 [])
    (mkTimerange 0 9000 1000) <= Start (mkTimerange 0 9000 1000)
  /\
  Select.earliestOf Example.contextA (Example.select 0 9000 1000 [])
    (mkTimerange 0 9000 1000) = Start (mkTimerange 0 9000 1000)
  /\
  Select.widenedTimerangeOf gridSnappedTimerange (mkTimerange 0 9000 1000)
    (Select.earliestOf Example.contextA (Example.select 0 9000 1000 [])
       (mkTimerange 0 9000 1000))
  = mkTimerange 0 9000 1000.
Proof.
  destruct (select_widening_lowers_start gridSnappedTimerange Example.contextA
              (Example.select 0 9000 1000 []) (mkTimerange 0 9000 1000))
    as [Hle Hempty].
  destruct (Hempty eq_refl) as [Heq Hwidened].
  split; [exact Hle |]. split; [exact Heq |].
  apply Hwidened.
  - unfold fits64, MinInt64, MaxInt64, Start, Millisecond. simpl. lia.
  - intros again Hagain. vm_compute in Hagain. congruence.
Defined.

(** C6 as stated fails for a request that starts in the year 2286 and
    has no expression: the request snaps, snapping it again gives it
    back, [earliest] is its start, and yet the widened range starts in
    the year 1702, because [UnixNano] of the start wraps around. *)
Lemma select_far_future_widened_range_differs :
  Expressions Example.farFuture = [] /\
  gridSnappedTimerange (ContextStart (Context Example.farFuture))
    (ContextEnd (Context Example.farFuture))
    (ContextResolution (Context Example.farFuture))
  = Ok (mkTimerange (10 ^ 13) (10 ^ 13 + 9000) 1000) /\
  gridSnappedTimerange (10 ^ 13) (10 ^ 13 + 9000) 1000
  = Ok (mkTimerange (10 ^ 13) (10 ^ 13 + 9000) 1000) /\
  Select.earliestOf Example.contextA Example.farFuture
    (mkTimerange (10 ^ 13) (10 ^ 13 + 9000) 1000)
  = Start (mkTimerange (10 ^ 13) (10 ^ 13 + 9000) 1000) /\
  Select.widenedTimerangeOf gridSnappedTimerange
    (mkTimerange (10 ^ 13) (10 ^ 13 + 9000) 1000)
    (Select.earliestOf Example.contextA Example.farFuture
       (mkTimerange (10 ^ 13) (10 ^ 13 + 9000) 1000))
  = mkTimerange (-8446744073709) 10000000008291 1000 /\
  Select.widenedTimerangeOf gridSnappedTimerange
    (mkTimerange (10 ^ 13) (10 ^ 13 + 9000) 1000)
    (Select.earliestOf Example.contextA Example.farFuture
       (mkTimerange (10 ^ 13) (10 ^ 13 + 9000) 1000))
  <> mkTimerange (10 ^ 13) (10 ^ 13 + 9000) 1000.
Proof.
  repeat split; try reflexivity.
  intros H. vm_compute in H. discriminate H.
Qed.

(** ** SelectCommand.Execute: the body and its type check *)

Section BodyProperties.

Variable NewSnappedTimerange : Z -> Z -> Z -> result Timerange.
Variable EvaluateMany :
  EvaluationContext -> list Expression -> result (list Value) * EvaluationNotes.
Variable natural_sort : list string -> list string.

Local Abbreviation Execute := (Select.Execute NewSnappedTimerange EvaluateMany natural_sort).
Local Abbreviation chosenOf := (Select.chosenOf NewSnappedTimerange).

Lemma queryResultOf_refused expression chosenTimerange value :
  refused value ->
  Select.queryResultOf expression chosenTimerange value =
  Err (Errorf (Select.mismatchMessage
                 (ExpressionDescription expression StringQueryFunction))).
Proof.
  intros [Hseries [e Hscalars]]. unfold Select.queryResultOf.
  rewrite Hseries, Hscalars. reflexivity.
Qed.

Lemma queryResultOf_Ok_not_refused expression chosenTimerange value q :
  Select.queryResultOf expression chosenTimerange value = Ok q -> ~ refused value.
Proof.
  intros Hq Href. rewrite (queryResultOf_refused _ _ _ Href) in Hq. discriminate Hq.
Qed.

(** The loop stops at the first refused value, provided the expressions
    up to there exist. *)
Lemma buildBody_first_refused expressions chosenTimerange values :
  forall k i value expression,
    values !! i = Some value ->
    expressions !! (k + i)%nat = Some expression ->
    refused value ->
    (forall j earlier, (j < i)%nat -> values !! j = Some earlier ->
                       ~ refused earlier /\ is_Some (expressions !! (k + j)%nat)) ->
    Select.buildBody expressions chosenTimerange k values =
    Ret (Err (Errorf (Select.mismatchMessage
                        (ExpressionDescription expression StringQueryFunction)))).
Proof.
  induction values as [| head rest IH]; intros k i value expression Hvalue Hexpr Href Hbefore.
  - discriminate Hvalue.
  - destruct i as [| i]; simpl in Hvalue.
    + injection Hvalue as ->. simpl. rewrite Nat.add_0_r in Hexpr. rewrite Hexpr.
      rewrite (queryResultOf_refused _ _ _ Href). reflexivity.
    + destruct (Hbefore 0%nat head ltac:(lia) eq_refl) as [Hok [e0 He0]].
      rewrite Nat.add_0_r in He0. simpl. rewrite He0.
      destruct (Select.queryResultOf e0 chosenTimerange head) as [q | err] eqn:Hq.
      * rewrite (IH (S k) i value expression Hvalue); [reflexivity | | exact Href |].
        -- rewrite <- Hexpr. f_equal. lia.
        -- intros j earlier Hj Hearlier.
           destruct (Hbefore (S j) earlier ltac:(lia) Hearlier) as [Hnr Hsome].
           split; [exact Hnr |]. replace (S k + j)%nat with (k + S j)%nat by lia.
           exact Hsome.
      * exfalso. apply Hok. unfold Select.queryResultOf in Hq.
        unfold refused. destruct (asSeriesListValue head); [discriminate Hq |].
        destruct (ToScalarSet head) as [s | e]; [discriminate Hq |]. eauto.
Qed.

(** What Execute returns when the evaluation delivers a refused value:
    an [fmt.Errorf] error whose text is built from the description that
    the expression gives for the uncalled [function.StringQuery]. *)
Lemma Execute_refused_value cmd context chosenTimerange chosenResolution
    values notes i value expression :
  chosenOf cmd context = Ret (Ok (chosenTimerange, chosenResolution)) ->
  Slots chosenTimerange <= Select.slotLimitOf context ->
  Select.evaluation EvaluateMany context cmd chosenTimerange = (Ok values, notes) ->
  values !! i = Some value ->
  Expressions cmd !! i = Some expression ->
  refused value ->
  (forall j earlier, (j < i)%nat -> values !! j = Some earlier ->
                     ~ refused earlier /\ is_Some (Expressions cmd !! j)) ->
  Execute TaskFinished cmd context =
  fail (Errorf (Select.mismatchMessage
                  (ExpressionDescription expression StringQueryFunction))).
Proof.
  intros Hchosen Hslots Heval Hvalue Hexpr Href Hbefore.
  rewrite Execute_after_chosen, Hchosen.
  destruct (Z.gtb_spec (Slots chosenTimerange) (Select.slotLimitOf context)); [lia |].
  unfold Select.selectOutcome. rewrite Heval. unfold Select.assemble.
  rewrite (buildBody_first_refused _ _ _ 0%nat i value expression Hvalue Hexpr Href Hbefore).
  reflexivity.
Qed.

End BodyProperties.

(** C5 on a concrete query: scenario A, whose only expression has query
    text "cpu", evaluates to a value that is neither a series list nor
    scalars.  Execute fails, but line 357 asks the expression for
    [function.StringQuery], the function, and not for
    [function.StringQuery()] as lines 340 and 350 do: the message is
    built from another description than the query text. *)
Theorem select_type_mismatch_message :
  ExpressionDescription (Example.metric "cpu" "cpu") StringQueryMode = "cpu" /\
  Select.Execute gridSnappedTimerange (Example.evaluateTo [Example.opaqueValue] [])
    NaturalSort.Sort TaskFinished Example.scenarioA Example.contextA
  = fail (Errorf "query  does not result in a timeseries or scalar.") /\
  Select.Execute gridSnappedTimerange (Example.evaluateTo [Example.opaqueValue] [])
    NaturalSort.Sort TaskFinished Example.scenarioA Example.contextA
  <> fail (Errorf "query cpu does not result in a timeseries or scalar.").
Proof.
  split; [reflexivity |]. split; [reflexivity |].
  intros H. vm_compute in H. discriminate H.
Qed.

(** ** SelectCommand.Execute: the description map *)

Lemma extended_nil entry : extended entry [] = entry.
Proof. reflexivity. Qed.

Lemma extended_app entry more1 more2 :
  extended (extended entry more1) more2 = extended entry (more1 ++ more2).
Proof.
  destruct more1 as [| x more1]; [reflexivity |].
  destruct more2 as [| y more2]; simpl.
  - rewrite app_nil_r. reflexivity.
  - rewrite <- app_assoc. reflexivity.
Qed.

Lemma appendTag_lookup description key value k :
  appendTag description key value !! k =
  if decide (key = k) then extended (description !! k) [value] else description !! k.
Proof.
  unfold appendTag. destruct (decide (key = k)) as [-> | Hne].
  - rewrite lookup_insert_eq. reflexivity.
  - rewrite lookup_insert_ne by exact Hne. reflexivity.
Qed.

(** A tag set holds at most one value per key, so whatever the order in
    which Go ranges over it, a key gains the value the set has for it. *)
Lemma addTagSet_lookup description (tags : TagSet) k :
  addTagSet description tags !! k = extended (description !! k) (option_list (tags !! k)).
Proof.
  unfold addTagSet.
  apply (map_fold_weak_ind
           (fun (d : gmap string (list string)) (m : gmap string string) =>
              d !! k = extended (description !! k) (option_list (m !! k)))).
  - rewrite lookup_empty. reflexivity.
  - intros key value m d Hfresh IH. rewrite appendTag_lookup.
    destruct (decide (key = k)) as [-> | Hne].
    + rewrite lookup_insert_eq, IH, Hfresh. reflexivity.
    + rewrite lookup_insert_ne by exact Hne. exact IH.
Qed.

Lemma addSeriesList_lookup description l k :
  addSeriesList description l !! k = extended (description !! k) (seriesTagValues k l).
Proof.
  unfold addSeriesList, seriesTagValues. generalize (Series l) as series.
  intros series. revert description.
  induction series as [| s series IH]; intros description; simpl.
  - reflexivity.
  - rewrite IH, addTagSet_lookup, extended_app. reflexivity.
Qed.

Lemma collectTags_lookup tr values k :
  collectTags tr values !! k = extended None (tagValues k tr values).
Proof.
  unfold collectTags, tagValues.
  rewrite <- (lookup_empty (M := gmap string) (A := list string) k).
  generalize (∅ : gmap string (list string)) as description.
  induction values as [| value values IH]; intros description; simpl.
  - reflexivity.
  - rewrite IH. destruct (ToSeriesList value tr) as [l | e]; simpl.
    + rewrite addSeriesList_lookup, extended_app. reflexivity.
    + reflexivity.
Qed.

Section DescriptionProperties.

Variable NewSnappedTimerange : Z -> Z -> Z -> result Timerange.
Variable EvaluateMany :
  EvaluationContext -> list Expression -> result (list Value) * EvaluationNotes.
Variable natural_sort : list string -> list string.

Local Abbreviation Execute := (Select.Execute NewSnappedTimerange EvaluateMany natural_sort).
Local Abbreviation chosenOf := (Select.chosenOf NewSnappedTimerange).

Lemma describe_lookup tr values k :
  Select.describe natural_sort tr values !! k =
  match tagValues k tr values with
  | [] => None
  | collected => Some (filterAdjacent None (natural_sort collected))
  end.
Proof.
  unfold Select.describe. rewrite lookup_fmap, collectTags_lookup.
  destruct (tagValues k tr values); reflexivity.
Qed.

(** The metadata of a successful Select. *)
Lemma Execute_succeeds_metadata choice cmd context r :
  Execute choice cmd context = succeed r ->
  exists chosenTimerange chosenResolution values notes,
    chosenOf cmd context = Ret (Ok (chosenTimerange, chosenResolution)) /\
    Select.evaluation EvaluateMany context cmd chosenTimerange = (Ok values, notes) /\
    Metadata r =
    Some (Select.selectMetadata (Select.describe natural_sort chosenTimerange values)
            notes chosenResolution).
Proof.
  intros Hr.
  destruct (Execute_succeeds_chosen _ _ _ _ _ _ _ Hr) as (ct & cr & Hchosen & _ & Hout).
  exists ct, cr. unfold Select.selectOutcome in Hout.
  destruct choice; [exfalso; exact (fail_not_succeed _ _ Hout) |].
  destruct (Select.evaluation EvaluateMany context cmd ct) as [[values | e] notes] eqn:Heval;
    [| exfalso; exact (fail_not_succeed _ _ Hout)].
  exists values, notes. split; [exact Hchosen |]. split; [reflexivity |].
  unfold Select.assemble in Hout.
  destruct (Select.buildBody _ _ _ _) as [[body | e] | msg].
  - unfold succeed in Hout. injection Hout as <-. reflexivity.
  - exfalso. exact (fail_not_succeed _ _ Hout).
  - discriminate Hout.
Qed.

(** C7: in the metadata of a successful Select, the description holds
    for every tag key the values of that key over all series of all
    results that are series lists, sorted by the natural sort and with
    adjacent duplicates removed (and no entry for a key that no series
    has); and sorting ["b","a","a","c"] naturally and removing adjacent
    duplicates gives ["a","b","c"]. *)
Theorem select_description choice cmd context r :
  (Execute choice cmd context = succeed r ->
   exists chosenTimerange chosenResolution values notes metadata description,
     chosenOf cmd context = Ret (Ok (chosenTimerange, chosenResolution)) /\
     Select.evaluation EvaluateMany context cmd chosenTimerange = (Ok values, notes) /\
     Metadata r = Some metadata /\
     metadata !! "description" = Some (MetaDescription description) /\
     forall key,
       description !! key =
       match tagValues key chosenTimerange values with
       | [] => None
       | collected => Some (filterAdjacent None (natural_sort collected))
       end)
  /\
  filterAdjacent None (NaturalSort.Sort ["b"; "a"; "a"; "c"]) = ["a"; "b"; "c"].
Proof.
  split; [| reflexivity].
  intros Hr.
  destruct (Execute_succeeds_metadata _ _ _ _ Hr)
    as (ct & cr & values & notes & Hchosen & Heval & Hmeta).
  exists ct, cr, values, notes,
    (Select.selectMetadata (Select.describe natural_sort ct values) notes cr),
    (Select.describe natural_sort ct values).
  split; [exact Hchosen |]. split; [exact Heval |]. split; [exact Hmeta |].
  split.
  - unfold Select.selectMetadata. rewrite lookup_insert_eq. reflexivity.
  - intros key. apply describe_lookup.
Qed.

End DescriptionProperties.

(** Scenario D of the specification: two expressions, series tagged
    host a and host b, give the description {"host": ["a","b"]}. *)
Lemma scenario_D_description :
  Select.describe NaturalSort.Sort (mkTimerange 0 8000 2000) Example.twoHosts
  = {[ "host" := ["a"; "b"] ]}.
Proof. vm_compute. reflexivity. Qed.

Lemma select_description_witness :
  (exists chosenTimerange chosenResolution values notes metadata description,
     Select.chosenOf gridSnappedTimerange Example.scenarioD Example.contextA
     = Ret (Ok (chosenTimerange, chosenResolution)) /\
     Select.evaluation (Example.evaluateTo Example.twoHosts []) Example.contextA
       Example.scenarioD chosenTimerange = (Ok values, notes) /\
     Metadata
       {| Body :=
            SelectBody
              [{| Query := "cpu[host=a]"; QueryName := "cpu"; QueryType := "series";
                  QuerySeries := [Example.tagged "host" "a"];
                  QueryTimerange := mkTimerange 0 8000 2000;
                  QueryScalars := [] |};
               {| Query := "cpu[host=b]"; QueryName := "cpu"; QueryType := "series";
                  QuerySeries := [Example.tagged "host" "b"];
                  QueryTimerange := mkTimerange 0 8000 2000;
                  QueryScalars := [] |}];
          Metadata :=
            Some (Select.selectMetadata {[ "host" := ["a"; "b"] ]} []
                    (2000 * Millisecond)) |}
     = Some metadata /\
     metadata !! "description" = Some (MetaDescription description) /\
     forall key,
       description !! key =
       match tagValues key chosenTimerange values with
       | [] => None
       | collected => Some (filterAdjacent None (NaturalSort.Sort collected))
       end)
  /\
  filterAdjacent None (NaturalSort.Sort ["b"; "a"; "a"; "c"]) = ["a"; "b"; "c"].
Proof.
  destruct (select_description gridSnappedTimerange
              (Example.evaluateTo Example.twoHosts []) NaturalSort.Sort
              TaskFinished Example.scenarioD Example.contextA
              {| Body :=
                   SelectBody
                     [{| Query := "cpu[host=a]"; QueryName := "cpu"; QueryType := "series";
                         QuerySeries := [Example.tagged "host" "a"];
                         QueryTimerange := mkTimerange 0 8000 2000;
                         QueryScalars := [] |};
                      {| Query := "cpu[host=b]"; QueryName := "cpu"; QueryType := "series";
                         QuerySeries := [Example.tagged "host" "b"];
                         QueryTimerange := mkTimerange 0 8000 2000;
                         QueryScalars := [] |}];
                 Metadata :=
                   Some (Select.selectMetadata {[ "host" := ["a"; "b"] ]} []
                           (2000 * Millisecond)) |})
    as [Hdescription Hexample].
  split; [| exact Hexample].
  apply Hdescription. vm_compute. reflexivity.
Defined.

(** ** ProfilingCommand.Execute *)

Lemma hasProfile_emptyResult : Profiling.hasProfile emptyResult = false.
Proof. reflexivity. Qed.

(** On success the spans recorded so far, if any, are attached. *)
Lemma profiling_success_attaches cmd context h result h' :
  CommandExecute (Profiling.Wrapped cmd)
    (withProfiler (Some (Profiling.CommandProfiler cmd)) context) h
  = Ret ((result, None), h') ->
  Profiling.All (Profiling.CommandProfiler cmd) h' <> [] ->
  exists r h'',
    Profiling.Execute cmd context h = Ret ((r, None), h'') /\
    Profiling.hasProfile r = true.
Proof.
  intros Hwrapped Hspans. unfold Profiling.Execute. cbv zeta.
  rewrite Hwrapped.
  destruct (Profiling.All (Profiling.CommandProfiler cmd) h') as [| span spans] eqn:Hall;
    [contradiction |].
  simpl. eexists _, _. split; [reflexivity |].
  unfold Profiling.hasProfile, Profiling.attachProfile, Profiling.profileKey. simpl.
  rewrite lookup_insert_eq. reflexivity.
Qed.

(** C9: when the wrapped command returns an error, ProfilingCommand
    returns that same error, and with it the empty Result: its metadata
    is the nil map, so it has no "profile" key. *)
Theorem profiling_failure_propagates cmd context h result err h' :
  CommandExecute (Profiling.Wrapped cmd)
    (withProfiler (Some (Profiling.CommandProfiler cmd)) context) h
  = Ret ((result, Some err), h') ->
  exists r h'',
    Profiling.Execute cmd context h = Ret ((r, Some err), h'') /\
    r = emptyResult /\
    Metadata r = None /\
    Profiling.hasProfile r = false.
Proof.
  intros Hwrapped. unfold Profiling.Execute. cbv zeta. rewrite Hwrapped.
  eexists _, _. split; [reflexivity |]. repeat split.
Qed.

(** The same through the constructor of line 381, for a command that
    returns a Result carrying a stale profile next to its error. *)
Lemma profiling_failure_propagates_witness :
  exists r h'',
    CommandExecute
      (Profiling.NewProfilingCommandWithProfiler Example.interrupted 1%nat)
      Example.contextA Example.heapWithSpan
    = Ret ((r, Some (ExternalError "interrupted")), h'') /\
    r = emptyResult /\
    Metadata r = None /\
    Profiling.hasProfile r = false.
Proof.
  apply (profiling_failure_propagates
           {| Profiling.CommandProfiler := 1%nat; Profiling.Wrapped := Example.interrupted |}
           Example.contextA Example.heapWithSpan
           {| Body := MetricsBody ["cpu"];
              Metadata := Some {[ "profile" := MetaProfile ["stale"] ]} |}
           (ExternalError "interrupted") Example.heapWithSpan).
  reflexivity.
Defined.

(** DescribeMetricsCommand behind the decorator, with the metadata
    backend down: the backend's error comes back unchanged. *)
Lemma profiling_describe_metrics_backend_down :
  CommandExecute
    (Profiling.NewProfilingCommandWithProfiler
       (DescribeMetrics.asCommand Example.describeHostA) 1%nat)
    Example.contextBackendDown Example.heapWithSpan
  = Ret ((emptyResult, Some (ExternalError "metadata backend unavailable")),
         {[ 1%nat := ["parse"; "describe metrics.Execute"] ]}).
Proof. vm_compute. reflexivity. Qed.

(** ** The race between the evaluation and the deadline *)

Section RaceProperties.

Variable evaluated : result (list Value).
Variable onResult : list Value -> Returned.
Variable onTimeout : Returned.

Local Abbreviation step := (Race.step evaluated onResult onTimeout).
Local Abbreviation anyStep := (Race.anyStep evaluated onResult onTimeout).
Local Abbreviation reachable := (Race.reachable evaluated onResult onTimeout).
Local Abbreviation Invariant := (Race.Invariant evaluated onResult onTimeout).

Lemma invariant_init n : Invariant n (Race.init n).
Proof.
  constructor; simpl; try reflexivity; try (intros; split; reflexivity).
  - intros values H. inversion H.
  - intros e H. inversion H.
  - intros r H. discriminate H.
Qed.

Lemma send_inv {A : Type} (c c' : Chan.chan A) (v : A) :
  Chan.send c v = Some c' ->
  Chan.capacity c' = Chan.capacity c /\ Chan.buffer c' = Chan.buffer c ++ [v].
Proof.
  unfold Chan.send. destruct (decide _); [| discriminate].
  intros H. injection H as <-. split; reflexivity.
Qed.

Lemma recv_inv {A : Type} (c c' : Chan.chan A) (v : A) :
  Chan.recv c = Some (v, c') ->
  Chan.capacity c' = Chan.capacity c /\ Chan.buffer c = v :: Chan.buffer c'.
Proof.
  unfold Chan.recv. destruct (Chan.buffer c) as [| x rest] eqn:Hb; [discriminate |].
  intros H. injection H as <- <-. split; reflexivity.
Qed.

Lemma invariant_step n l s s' : Invariant n s -> step l s s' -> Invariant n s'.
Proof.
  intros [Hrc Hec Hunsent Hrs Hes Hret] Hstep.
  destruct Hstep as
    [ s
    | s values c Htask Hev Hsend
    | s e c Htask Hev Hsend
    | s values Htask Hcaller Hev Hcap0
    | s e Htask Hcaller Hev Hcap0
    | s Hcaller Hdone
    | s e c Hcaller Hrecv
    | s values c Hcaller Hrecv ].
  - constructor; simpl; assumption.
  - destruct (send_inv _ _ _ Hsend) as [Hcap Hbuf].
    destruct (Hunsent Htask) as [Hr0 He0].
    constructor; simpl; try assumption; try congruence.
    intros v. rewrite Hbuf, Hr0. simpl. intros Hin.
    apply list_elem_of_singleton in Hin. congruence.
  - destruct (send_inv _ _ _ Hsend) as [Hcap Hbuf].
    destruct (Hunsent Htask) as [Hr0 He0].
    constructor; simpl; try assumption; try congruence.
    intros v. rewrite Hbuf, He0. simpl. intros Hin.
    apply list_elem_of_singleton in Hin. congruence.
  - constructor; simpl; try assumption; try congruence.
    intros r Hr. injection Hr as <-. right. left. eauto.
  - constructor; simpl; try assumption; try congruence.
    intros r Hr. injection Hr as <-. right. right. eauto.
  - constructor; simpl; try assumption; try congruence.
    intros r Hr. injection Hr as <-. left. reflexivity.
  - destruct (recv_inv _ _ _ Hrecv) as [Hcap Hbuf].
    constructor; simpl; try assumption; try congruence.
    + intros Htask. destruct (Hunsent Htask) as [_ He0]. rewrite He0 in Hbuf.
      discriminate Hbuf.
    + intros e' Hin. apply Hes. rewrite Hbuf. right. exact Hin.
    + intros r Hr. injection Hr as <-. right. right. exists e. split; [| reflexivity].
      apply Hes. rewrite Hbuf. left.
  - destruct (recv_inv _ _ _ Hrecv) as [Hcap Hbuf].
    constructor; simpl; try assumption; try congruence.
    + intros Htask. destruct (Hunsent Htask) as [Hr0 _]. rewrite Hr0 in Hbuf.
      discriminate Hbuf.
    + intros v Hin. apply Hrs. rewrite Hbuf. right. exact Hin.
    + intros r Hr. injection Hr as <-. right. left. exists values. split; [| reflexivity].
      apply Hrs. rewrite Hbuf. left.
Qed.

Lemma invariant_reachable n s : reachable n s -> Invariant n s.
Proof.
  unfold Race.reachable. intros Hreach.
  refine (rtc_ind_r (Invariant n) (Race.init n) _ _ s Hreach).
  - apply invariant_init.
  - intros s1 s2 _ [l Hstep] IH. exact (invariant_step _ _ _ _ IH Hstep).
Qed.

(** With room for one value the goroutine can always send. *)
Lemma task_can_send n s :
  (1 <= n)%nat -> reachable n s -> Race.task s = Race.Evaluating ->
  exists s', step Race.TaskSend s s' /\
             Race.task s' = Race.Finished /\ Race.caller s' = Race.caller s.
Proof.
  intros Hn Hreach Htask.
  destruct (invariant_reachable _ _ Hreach) as [Hrc Hec Hunsent _ _ _].
  destruct (Hunsent Htask) as [Hr0 He0].
  assert (Hcases : (exists values, evaluated = Ok values) \/ (exists e, evaluated = Err e)).
  { clear. destruct evaluated; eauto. }
  destruct Hcases as [[values Hev] | [e Hev]].
  - eexists. split.
    + eapply Race.step_send_result; [exact Htask | exact Hev |].
      unfold Chan.send. rewrite Hr0, Hrc. simpl.
      destruct (decide (0 < n)%nat); [reflexivity | lia].
    + split; reflexivity.
  - eexists. split.
    + eapply Race.step_send_error; [exact Htask | exact Hev |].
      unfold Chan.send. rewrite He0, Hec. simpl.
      destruct (decide (0 < n)%nat); [reflexivity | lia].
    + split; reflexivity.
Qed.

(** The goroutine sends once. *)
Lemma task_sends_once l s s' :
  step l s s' -> Race.task s = Race.Finished ->
  l <> Race.TaskSend /\ l <> Race.TaskHandOff /\ Race.task s' = Race.Finished.
Proof.
  intros Hstep Hdone. inversion Hstep; subst; simpl; try congruence; repeat split; congruence.
Qed.

(** Once the caller has left, nothing changes what it returned. *)
Lemma caller_stable_step l s s' r :
  step l s s' -> Race.caller s = Race.Left r -> Race.caller s' = Race.Left r.
Proof.
  intros Hstep Hleft. inversion Hstep; subst; simpl; congruence.
Qed.



(** Without buffer, a goroutine whose caller has left can never send. *)
Lemma unbuffered_task_blocks s r :
  reachable 0 s -> Race.caller s = Race.Left r -> Race.task s = Race.Evaluating ->
  forall s', rtc anyStep s s' -> Race.task s' = Race.Evaluating.
Proof.
  intros Hreach Hleft Htask s' Hsteps.
  induction Hsteps as [| s s1 s2 [l Hstep] _ IH]; [exact Htask |].
  destruct (invariant_reachable _ _ Hreach) as [Hrc Hec _ _ _ _].
  assert (Hreach1 : reachable 0 s1).
  { unfold Race.reachable. eapply rtc_r; [exact Hreach | exists l; exact Hstep]. }
  apply (IH Hreach1).
  - exact (caller_stable_step _ _ _ _ Hstep Hleft).
  - inversion Hstep; subst; simpl; try assumption; try congruence.
    + match goal with H : Chan.send _ _ = Some _ |- _ =>
        unfold Chan.send in H; rewrite Hrc in H end.
      destruct (decide _) as [Hlt |]; [lia | discriminate].
    + match goal with H : Chan.send _ _ = Some _ |- _ =>
        unfold Chan.send in H; rewrite Hec in H end.
      destruct (decide _) as [Hlt |]; [lia | discriminate].
Qed.

End RaceProperties.

(** ** SelectCommand.Execute: timeout and channels *)

Section SelectRaceProperties.

Variable EvaluateMany :
  EvaluationContext -> list Expression -> result (list Value) * EvaluationNotes.
Variable natural_sort : list string -> list string.

Local Abbreviation raceStep := (Select.raceStep EvaluateMany natural_sort).
Local Abbreviation raceReachable := (Select.raceReachable EvaluateMany natural_sort).
Local Abbreviation selectOutcome := (Select.selectOutcome EvaluateMany natural_sort).


Lemma select_outcome_is_race_outcome context cmd chosenTimerange chosenResolution choice :
  exists s,
    raceReachable context cmd chosenTimerange chosenResolution s /\
    Race.caller s =
    Race.Left (selectOutcome choice context cmd chosenTimerange chosenResolution).
Proof.
  destruct choice.
  - eexists. split.
    + eapply rtc_l; [exists Race.Fire; apply Race.step_fire |].
      eapply rtc_l; [exists Race.SelectDone; apply Race.step_select_done; reflexivity |].
      apply rtc_refl.
    + reflexivity.
  - unfold Select.selectOutcome.
    destruct (Select.evaluation EvaluateMany context cmd chosenTimerange)
      as [[values | e] notes] eqn:Heval.
    + eexists. split.
      * eapply rtc_l.
        { exists Race.TaskSend. eapply Race.step_send_result;
            [reflexivity | rewrite Heval; reflexivity | reflexivity]. }
        eapply rtc_l.
        { exists Race.SelectResult. eapply Race.step_select_result; reflexivity. }
        apply rtc_refl.
      * simpl. rewrite Heval. reflexivity.
    + eexists. split.
      * eapply rtc_l.
        { exists Race.TaskSend. eapply Race.step_send_error;
            [reflexivity | rewrite Heval; reflexivity | reflexivity]. }
        eapply rtc_l.
        { exists Race.SelectError. eapply Race.step_select_error; reflexivity. }
        apply rtc_refl.
      * reflexivity.
Qed.

(** C8: the two channels of lines 291 and 292 have capacity 1, hence
    at least 1, and in every state of the race in which the goroutine
    has not sent yet, whatever the caller has done, its send can proceed
    at once and ends it. *)
Theorem select_task_send_never_blocks context cmd chosenTimerange chosenResolution :
  (1 <= Chan.capacity (Race.results Select.raceInit))%nat /\
  (1 <= Chan.capacity (Race.errors Select.raceInit))%nat /\
  forall s,
    raceReachable context cmd chosenTimerange chosenResolution s ->
    Race.task s = Race.Evaluating ->
    exists s',
      raceStep context cmd chosenTimerange chosenResolution Race.TaskSend s s' /\
      Race.task s' = Race.Finished /\
      Race.caller s' = Race.caller s.
Proof.
  split; [simpl; lia |]. split; [simpl; lia |].
  intros s Hreach Htask.
  exact (task_can_send _ _ _ 1%nat s ltac:(lia) Hreach Htask).
Qed.


End SelectRaceProperties.


(** The goroutine can still send after the caller has returned on the
    Done case. *)
Lemma select_task_send_never_blocks_witness :
  (1 <= Chan.capacity (Race.results Select.raceInit))%nat /\
  (1 <= Chan.capacity (Race.errors Select.raceInit))%nat /\
  exists s',
    Select.raceStep (Example.evaluateTo Example.twoHosts []) NaturalSort.Sort
      Example.context50ms Example.scenarioD (mkTimerange 0 8000 2000)
      (2000 * Millisecond) Race.TaskSend Example.timedOut s' /\
    Race.task s' = Race.Finished /\
    Race.caller s' = Race.caller Example.timedOut.
Proof.
  destruct (select_task_send_never_blocks
              (Example.evaluateTo Example.twoHosts []) NaturalSort.Sort
              Example.context50ms Example.scenarioD (mkTimerange 0 8000 2000)
              (2000 * Millisecond)) as (Hresults & Herrors & Hsend).
  split; [exact Hresults |]. split; [exact Herrors |].
  apply Hsend.
  - eapply rtc_l; [exists Race.Fire; apply Race.step_fire |].
    eapply rtc_l; [exists Race.SelectDone; apply Race.step_select_done; reflexivity |].
    apply rtc_refl.
  - reflexivity.
Defined.

(** ** The snapping function written from the specification *)

(** What it returns is a valid range on the grid of its resolution. *)
Lemma gridSnappedTimerange_valid start end_ resolution tr :
  gridSnappedTimerange start end_ resolution = Ok tr ->
  0 < tr_resolution tr /\
  tr_start tr <= tr_end tr /\
  tr_end tr <= end_ /\
  (tr_end tr - tr_start tr) mod tr_resolution tr = 0 /\
  1 <= Slots tr.
Proof.
  unfold gridSnappedTimerange.
  destruct (Z.leb_spec resolution 0) as [| Hres]; [discriminate |].
  destruct (Z.leb_spec ((end_ - start) / resolution + 1) 0) as [| Hslots]; [discriminate |].
  intros H. injection H as <-. unfold Slots. simpl.
  replace (start + (end_ - start) / resolution * resolution - start)
    with ((end_ - start) / resolution * resolution) by lia.
  rewrite Z.mod_mul, Z.div_mul by lia.
  pose proof (Z.mul_div_le (end_ - start) resolution Hres).
  repeat split; nia.
Qed.

(** Section 8 of the specification: snapping a snapped range gives it
    back. *)
Lemma gridSnappedTimerange_idempotent start end_ resolution tr :
  gridSnappedTimerange start end_ resolution = Ok tr ->
  gridSnappedTimerange (StartMillis tr) (EndMillis tr) (ResolutionMillis tr) = Ok tr.
Proof.
  unfold gridSnappedTimerange.
  destruct (Z.leb_spec resolution 0) as [| Hres]; [discriminate |].
  destruct (Z.leb_spec ((end_ - start) / resolution + 1) 0) as [| Hslots]; [discriminate |].
  intros H. injection H as <-. unfold StartMillis, EndMillis, ResolutionMillis. simpl.
  replace (start + (end_ - start) / resolution * resolution - start)
    with ((end_ - start) / resolution * resolution) by lia.
  rewrite Z.div_mul by lia.
  destruct (Z.leb_spec resolution 0); [lia |].
  destruct (Z.leb_spec ((end_ - start) / resolution + 1) 0); [lia |].
  reflexivity.
Qed.

(** With this snapping function and no expression, the widened range is
    the user's range as long as the start fits [UnixNano]. *)
Lemma grid_widened_range_without_expression context cmd userTimerange :
  Expressions cmd = [] ->
  gridSnappedTimerange (ContextStart (Context cmd)) (ContextEnd (Context cmd))
    (ContextResolution (Context cmd)) = Ok userTimerange ->
  fits64 (Start userTimerange) ->
  Select.widenedTimerangeOf gridSnappedTimerange userTimerange
    (Select.earliestOf context cmd userTimerange) = userTimerange.
Proof.
  intros Hempty Hsnap Hfits. unfold Select.widenedTimerangeOf, Select.earliestOf.
  rewrite Hempty. simpl. rewrite (UnixNano_Start_millis _ Hfits).
  rewrite (gridSnappedTimerange_idempotent _ _ _ _ Hsnap). reflexivity.
Qed.

(** Scenarios A and B of the specification. *)
Lemma scenario_A_smallest_resolution :
  Select.smallestResolutionOf (mkTimerange 0 9000 1000) 10 = Some (1125 * Millisecond) /\
  Select.chosenOf gridSnappedTimerange Example.scenarioA Example.contextA
  = Ret (Ok (mkTimerange 0 8000 2000, 2000 * Millisecond)) /\
  Slots (mkTimerange 0 8000 2000) = 5.
Proof. repeat split; reflexivity. Qed.

Lemma scenario_B_smallest_resolution :
  Select.smallestResolutionOf (mkTimerange 0 9000 1000) 3 = Some (9000 * Millisecond) /\
  Select.chosenOf gridSnappedTimerange Example.scenarioA Example.contextB
  = Ret (Ok (mkTimerange 0 9000 1000, 1000 * Millisecond)) /\
  Slots (mkTimerange 0 9000 1000) = 10.
Proof. repeat split; reflexivity. Qed.

(** * Further properties of the commands *)

(** ** SelectCommand.Execute: what it returns on each exit *)

Section SelectExits.

Variable NewSnappedTimerange : Z -> Z -> Z -> result Timerange.
Variable EvaluateMany :
  EvaluationContext -> list Expression -> result (list Value) * EvaluationNotes.
Variable natural_sort : list string -> list string.

Local Abbreviation Execute := (Select.Execute NewSnappedTimerange EvaluateMany natural_sort).
Local Abbreviation chosenOf := (Select.chosenOf NewSnappedTimerange).
Local Abbreviation selectOutcome := (Select.selectOutcome EvaluateMany natural_sort).
Local Abbreviation userSnap cmd :=
  (NewSnappedTimerange (ContextStart (Context cmd)) (ContextEnd (Context cmd))
     (ContextResolution (Context cmd))).



Lemma buildBody_Panic expressions chosenTimerange values :
  forall k msg,
    Select.buildBody expressions chosenTimerange k values = Panic msg ->
    msg = index_out_of_range /\ (length expressions < k + length values)%nat.
Proof.
  induction values as [| value rest IH]; intros k msg; simpl.
  - discriminate.
  - destruct (expressions !! k) as [expression |] eqn:Hexpr.
    + destruct (Select.queryResultOf expression chosenTimerange value); [| discriminate].
      destruct (Select.buildBody expressions chosenTimerange (S k) rest)
        as [[qs | e] | msg'] eqn:Hrest; try discriminate.
      intros H. injection H as <-. destruct (IH (S k) msg' Hrest) as [-> Hlen].
      split; [reflexivity | lia].
    + intros H. injection H as <-. split; [reflexivity |].
      apply lookup_ge_None in Hexpr. lia.
Qed.

Lemma buildBody_Ok expressions chosenTimerange values :
  forall k body,
    Select.buildBody expressions chosenTimerange k values = Ret (Ok body) ->
    length body = length values /\
    (k + length values <= length expressions \/ values = [])%nat /\
    forall i value,
      values !! i = Some value ->
      exists expression q,
        expressions !! (k + i)%nat = Some expression /\
        body !! i = Some q /\
        Select.queryResultOf expression chosenTimerange value = Ok q.
Proof.
  induction values as [| value rest IH]; intros k body; simpl.
  - intros H. injection H as <-. split; [reflexivity |]. split; [right; reflexivity |].
    intros i value Hi. discriminate Hi.
  - destruct (expressions !! k) as [expression |] eqn:Hexpr; [| discriminate].
    destruct (Select.queryResultOf expression chosenTimerange value) as [q | e] eqn:Hq;
      [| discriminate].
    destruct (Select.buildBody expressions chosenTimerange (S k) rest)
      as [[qs | e] | msg'] eqn:Hrest; try discriminate.
    intros H. injection H as <-.
    destruct (IH (S k) qs Hrest) as (Hlen & Hbound & Hall).
    split; [simpl; congruence |]. split.
    + left. apply lookup_lt_Some in Hexpr.
      destruct Hbound as [Hb | ->]; simpl in *; lia.
    + intros [| i] v Hv; simpl in Hv.
      * injection Hv as <-. exists expression, q. rewrite Nat.add_0_r. auto.
      * destruct (Hall i v Hv) as (e' & q' & He' & Hq' & Hres).
        exists e', q'. replace (k + S i)%nat with (S k + i)%nat by lia. auto.
Qed.

Lemma buildBody_Err expressions chosenTimerange values :
  forall k e,
    Select.buildBody expressions chosenTimerange k values = Ret (Err e) ->
    exists i value,
      (k + i < length expressions)%nat /\ values !! i = Some value /\ refused value.
Proof.
  induction values as [| v vs IH]; intros k e; simpl; [discriminate |].
  destruct (expressions !! k) as [expression |] eqn:Hexpr; [| discriminate].
  destruct (Select.queryResultOf expression chosenTimerange v) as [q | e'] eqn:Hq.
  - destruct (Select.buildBody expressions chosenTimerange (S k) vs)
      as [[qs | e''] | msg] eqn:Hrest; try discriminate.
    intros _. destruct (IH (S k) e'' Hrest) as (i & value & Hi & Hv & Href).
    exists (S i), value. split; [lia |]. split; [exact Hv | exact Href].
  - intros _. exists 0%nat, v. split.
    + apply lookup_lt_Some in Hexpr. lia.
    + split; [reflexivity |]. unfold Select.queryResultOf in Hq. unfold refused.
      destruct (asSeriesListValue v); [discriminate Hq |].
      destruct (ToScalarSet v) as [s | e0]; [discriminate Hq |]. eauto.
Qed.

(** X1: whenever Execute returns an error, the Result next to it is the
    empty Result of [Result{}]: no body, nil metadata. *)
Theorem select_error_has_empty_result choice cmd context r e :
  Execute choice cmd context = Ret (r, Some e) ->
  r = emptyResult /\ Body r = NilBody /\ Metadata r = None.
Proof.
  intros H.
  assert (Hr : r = emptyResult).
  { rewrite Execute_after_chosen in H.
    destruct (chosenOf cmd context) as [[[ct cr] | e0] | msg]; try discriminate H.
    - destruct (Slots ct >? Select.slotLimitOf context).
      + unfold fail in H. congruence.
      + unfold Select.selectOutcome in H. destruct choice.
        * unfold fail in H. congruence.
        * destruct (Select.evaluation EvaluateMany context cmd ct) as [[values | e1] notes].
          -- unfold Select.assemble in H.
             destruct (Select.buildBody _ _ _ _) as [[body | e2] | msg]; try discriminate H.
             unfold fail in H. congruence.
          -- unfold fail in H. congruence.
    - unfold fail in H. congruence. }
  subst r. repeat split.
Qed.


(** X3: on success the body has one QueryResult per evaluated value, in
    order; there are at most as many values as expressions; entry [i]
    carries the query text and the name of expression [i], and is a
    "series" entry with the chosen range exactly when value [i] is a
    SeriesListValue, a "scalars" entry with the zero range otherwise. *)
Theorem select_body_shape choice cmd context r :
  Execute choice cmd context = succeed r ->
  exists chosenTimerange chosenResolution values notes body,
    chosenOf cmd context = Ret (Ok (chosenTimerange, chosenResolution)) /\
    Select.evaluation EvaluateMany context cmd chosenTimerange = (Ok values, notes) /\
    Body r = SelectBody body /\
    length body = length values /\
    (length values <= length (Expressions cmd))%nat /\
    forall i value,
      values !! i = Some value ->
      exists expression q,
        Expressions cmd !! i = Some expression /\
        body !! i = Some q /\
        Query q = ExpressionDescription expression StringQueryMode /\
        QueryName q = ExpressionDescription expression StringNameMode /\
        ((exists l, asSeriesListValue value = Some l /\
                    QueryType q = "series" /\ QuerySeries q = Series l /\
                    QueryTimerange q = chosenTimerange /\ QueryScalars q = [])
         \/
         (exists scalars, asSeriesListValue value = None /\
                          ToScalarSet value = Ok scalars /\
                          QueryType q = "scalars" /\ QueryScalars q = scalars /\
                          QueryTimerange q = zeroTimerange /\ QuerySeries q = [])).
Proof.
  intros Hr.
  destruct (Execute_succeeds_chosen _ _ _ _ _ _ _ Hr) as (ct & cr & Hchosen & _ & Hout).
  unfold Select.selectOutcome in Hout.
  destruct choice; [exfalso; exact (fail_not_succeed _ _ Hout) |].
  destruct (Select.evaluation EvaluateMany context cmd ct) as [[values | e] notes] eqn:Heval;
    [| exfalso; exact (fail_not_succeed _ _ Hout)].
  unfold Select.assemble in Hout.
  destruct (Select.buildBody (Expressions cmd) ct 0 values) as [[body | e] | msg] eqn:Hbody.
  - unfold succeed in Hout. injection Hout as <-.
    destruct (buildBody_Ok _ _ _ _ _ Hbody) as (Hlen & Hbound & Hall).
    exists ct, cr, values, notes, body.
    split; [exact Hchosen |]. split; [exact Heval |]. split; [reflexivity |].
    split; [exact Hlen |]. split.
    { destruct Hbound as [Hb | ->]; simpl in *; lia. }
    intros i value Hvalue.
    destruct (Hall i value Hvalue) as (expression & q & Hexpr & Hq & Hres).
    exists expression, q. split; [exact Hexpr |]. split; [exact Hq |].
    unfold Select.queryResultOf in Hres.
    destruct (asSeriesListValue value) as [l |] eqn:Hseries.
    + injection Hres as <-. simpl. split; [reflexivity |]. split; [reflexivity |].
      left. exists l. repeat split.
    + destruct (ToScalarSet value) as [scalars | e] eqn:Hscalars; [| discriminate Hres].
      injection Hres as <-. simpl. split; [reflexivity |]. split; [reflexivity |].
      right. exists scalars. repeat split.
  - exfalso. exact (fail_not_succeed _ _ Hout).
  - discriminate Hout.
Qed.

(** X4: when the evaluation hands back more values than there are
    expressions and none of the values that have an expression is
    refused, Execute panics with an index out of range. *)
Theorem select_surplus_value_panics cmd context chosenTimerange chosenResolution
    values notes :
  chosenOf cmd context = Ret (Ok (chosenTimerange, chosenResolution)) ->
  Slots chosenTimerange <= Select.slotLimitOf context ->
  Select.evaluation EvaluateMany context cmd chosenTimerange = (Ok values, notes) ->
  (length (Expressions cmd) < length values)%nat ->
  (forall i value, (i < length (Expressions cmd))%nat ->
                   values !! i = Some value -> ~ refused value) ->
  Execute TaskFinished cmd context = Panic index_out_of_range.
Proof.
  intros Hchosen Hslots Heval Hlen Hgood.
  rewrite Execute_after_chosen, Hchosen.
  destruct (Z.gtb_spec (Slots chosenTimerange) (Select.slotLimitOf context)); [lia |].
  unfold Select.selectOutcome. rewrite Heval. unfold Select.assemble.
  destruct (Select.buildBody (Expressions cmd) chosenTimerange 0 values)
    as [[body | e] | msg] eqn:Hbody.
  - destruct (buildBody_Ok _ _ _ _ _ Hbody) as (_ & [Hb | ->] & _); simpl in *; lia.
  - exfalso.
    destruct (buildBody_Err _ _ _ _ _ Hbody) as (i & value & Hi & Hv & Href).
    exact (Hgood i value Hi Hv Href).
  - destruct (buildBody_Panic _ _ _ _ _ Hbody) as [-> _]. reflexivity.
Qed.

End SelectExits.

(** ** SelectCommand.Execute: the slot budget *)

Section SelectBudget.

Variable NewSnappedTimerange : Z -> Z -> Z -> result Timerange.
Variable EvaluateMany :
  EvaluationContext -> list Expression -> result (list Value) * EvaluationNotes.
Variable natural_sort : list string -> list string.

Local Abbreviation Execute := (Select.Execute NewSnappedTimerange EvaluateMany natural_sort).
Local Abbreviation chosenOf := (Select.chosenOf NewSnappedTimerange).
Local Abbreviation selectOutcome := (Select.selectOutcome EvaluateMany natural_sort).
Local Abbreviation userSnap cmd :=
  (NewSnappedTimerange (ContextStart (Context cmd)) (ContextEnd (Context cmd))
     (ContextResolution (Context cmd))).

(** The chosen range is snapped from the end points of the user's
    range, not of the widened one, at the resolution the backend chose
    for the widened range; the division of line 209 did not panic. *)
Lemma chosenOf_Ok cmd context chosenTimerange chosenResolution :
  chosenOf cmd context = Ret (Ok (chosenTimerange, chosenResolution)) ->
  exists userTimerange smallestResolution,
    userSnap cmd = Ok userTimerange /\
    Select.smallestResolutionOf userTimerange (Select.slotLimitOf context)
    = Some smallestResolution /\
    ChooseResolution (TimeseriesStorageAPI context)
      (Select.widenedTimerangeOf NewSnappedTimerange userTimerange
         (Select.earliestOf context cmd userTimerange))
      smallestResolution = Ok chosenResolution /\
    NewSnappedTimerange (StartMillis userTimerange) (EndMillis userTimerange)
      (Z.quot chosenResolution Millisecond) = Ok chosenTimerange.
Proof.
  unfold Select.chosenOf.
  destruct (userSnap cmd) as [u | e]; [| discriminate].
  destruct (Select.smallestResolutionOf u (Select.slotLimitOf context)) as [sr |] eqn:Hsr;
    [| discriminate].
  unfold Select.negotiate.
  destruct (ChooseResolution _ _ _) as [cr | e] eqn:Hcr; [| discriminate].
  destruct (NewSnappedTimerange (StartMillis u) _ _) as [ct | e] eqn:Hct; [| discriminate].
  intros H. injection H as <- <-. exists u, sr.
  split; [reflexivity |]. split; [exact Hsr |]. split; [exact Hcr | exact Hct].
Qed.

(** X5: when every range that snapping returns has at least one slot,
    Execute can succeed only with SlotLimit 0 (the default of 1000), 1,
    or at least 3: a negative SlotLimit refuses every query, and 2 never
    gets as far as the slot check. *)
Theorem select_succeeds_only_with_usable_limit choice cmd context r :
  (forall start end_ resolution tr,
      NewSnappedTimerange start end_ resolution = Ok tr -> 1 <= Slots tr) ->
  Execute choice cmd context = succeed r ->
  SlotLimit context = 0 \/ SlotLimit context = 1 \/ 3 <= SlotLimit context.
Proof.
  intros Hslots Hr.
  destruct (Execute_succeeds_chosen _ _ _ _ _ _ _ Hr) as (ct & cr & Hchosen & Hle & _).
  destruct (chosenOf_Ok _ _ _ _ Hchosen) as (u & sr & _ & Hsr & _ & Hct).
  specialize (Hslots _ _ _ _ Hct).
  unfold Select.slotLimitOf in Hle, Hsr. cbv zeta in Hle, Hsr.
  destruct (Z.eqb_spec (SlotLimit context) 0) as [Hz | Hnz]; [left; exact Hz |].
  right. destruct (Z.eq_dec (SlotLimit context) 2) as [H2 | Hn2].
  - rewrite H2 in Hsr. discriminate Hsr.
  - lia.
Qed.

Lemma smallestResolutionOf_exact userTimerange slotLimit :
  0 <= EndMillis userTimerange - StartMillis userTimerange ->
  fits64 ((EndMillis userTimerange - StartMillis userTimerange) * Millisecond) ->
  3 <= slotLimit <= MaxInt64 ->
  Select.smallestResolutionOf userTimerange slotLimit =
  Some ((EndMillis userTimerange - StartMillis userTimerange) * Millisecond
        / (slotLimit - 2)).
Proof.
  unfold EndMillis, StartMillis. intros Hpos Hfits Hlimit.
  unfold Select.smallestResolutionOf, TimerangeDuration.
  rewrite (wrap64_fits _ Hfits).
  assert (Hq : fits64 (slotLimit - 2)).
  { unfold fits64, MinInt64, MaxInt64 in *. lia. }
  rewrite (wrap64_fits _ Hq), div64_nonzero by lia.
  assert (Hnonneg : 0 <= (tr_end userTimerange - tr_start userTimerange) * Millisecond).
  { unfold Millisecond. lia. }
  rewrite Z.quot_div_nonneg by lia.
  rewrite wrap64_fits; [reflexivity |].
  pose proof (Z.div_pos _ (slotLimit - 2) Hnonneg ltac:(lia)).
  assert ((tr_end userTimerange - tr_start userTimerange) * Millisecond / (slotLimit - 2)
          <= (tr_end userTimerange - tr_start userTimerange) * Millisecond).
  { apply Z.div_le_upper_bound; [lia | nia]. }
  unfold fits64, MinInt64, MaxInt64 in *. lia.
Qed.

(** X6: the margin of two slots in line 209 is enough, as the comment
    of lines 210 to 215 derives.  For a slot limit from 3 to 1000002, a
    range whose duration in nanoseconds fits an int64, a backend that
    answers a whole number [r] of milliseconds not below the smallest
    resolution, and a snap at [r] that keeps the resolution and widens
    the user's range by at most [r] in all, the chosen range is within
    the slot limit and Execute goes on to the select statement. *)
Theorem select_margin_suffices
    choice cmd context userTimerange chosenTimerange chosenResolution r :
  userSnap cmd = Ok userTimerange ->
  0 <= EndMillis userTimerange - StartMillis userTimerange ->
  fits64 ((EndMillis userTimerange - StartMillis userTimerange) * Millisecond) ->
  3 <= Select.slotLimitOf context <= 1000002 ->
  chosenOf cmd context = Ret (Ok (chosenTimerange, chosenResolution)) ->
  chosenResolution = r * Millisecond ->
  0 < r ->
  (forall smallestResolution,
      Select.smallestResolutionOf userTimerange (Select.slotLimitOf context)
      = Some smallestResolution ->
      smallestResolution <= chosenResolution) ->
  ResolutionMillis chosenTimerange = r ->
  EndMillis chosenTimerange - StartMillis chosenTimerange
  <= EndMillis userTimerange - StartMillis userTimerange + r ->
  Slots chosenTimerange <= Select.slotLimitOf context /\
  Execute choice cmd context =
  selectOutcome choice context cmd chosenTimerange chosenResolution.
Proof.
  intros Hsnap Hpos Hfits Hlimit Hchosen Hcr Hr Hhonoured Hres Hspan.
  set (L := Select.slotLimitOf context) in *.
  set (D := EndMillis userTimerange - StartMillis userTimerange) in *.
  assert (HL : 3 <= L <= MaxInt64) by (unfold MaxInt64; lia).
  pose proof (Hhonoured _ (smallestResolutionOf_exact _ _ Hpos Hfits HL)) as Hsmall.
  fold D in Hsmall. rewrite Hcr in Hsmall. unfold Millisecond in Hsmall.
  assert (Hrq : D <= r * (L - 2)).
  { assert (Hq : 0 < L - 2) by lia.
    pose proof (Z.mul_succ_div_gt (D * 1000000) (L - 2) Hq) as Hgt.
    nia. }
  assert (Hslots : Slots chosenTimerange <= L).
  { unfold Slots. unfold EndMillis, StartMillis, ResolutionMillis in Hres, Hspan.
    rewrite Hres.
    assert ((tr_end chosenTimerange - tr_start chosenTimerange) / r <= L - 1).
    { apply Z.div_le_upper_bound; [lia | nia]. }
    lia. }
  split; [exact Hslots |].
  rewrite Execute_after_chosen, Hchosen. fold L.
  destruct (Z.gtb_spec (Slots chosenTimerange) L); [lia | reflexivity].
Qed.

End SelectBudget.

(** ** The order of metric keys *)

Lemma string_compare_trans (s1 : string) :
  forall s2 s3,
    String.compare s1 s2 <> Gt -> String.compare s2 s3 <> Gt ->
    String.compare s1 s3 <> Gt.
Proof.
  induction s1 as [| a s1 IH]; intros [| b s2] [| c s3]; simpl; try congruence.
  unfold Ascii.compare.
  destruct (N.compare_spec (Ascii.N_of_ascii a) (Ascii.N_of_ascii b)) as [Hab | Hab | Hab];
    destruct (N.compare_spec (Ascii.N_of_ascii b) (Ascii.N_of_ascii c)) as [Hbc | Hbc | Hbc];
    try congruence;
    destruct (N.compare_spec (Ascii.N_of_ascii a) (Ascii.N_of_ascii c)) as [Hac | Hac | Hac];
    try congruence; try lia.
  apply IH.
Qed.

Lemma LessEq_spec a b : MetricKeys.LessEq a b = true <-> String.compare a b <> Gt.
Proof.
  unfold MetricKeys.LessEq, String.leb.
  destruct (String.compare a b); split; intros; congruence.
Qed.

Lemma LessEq_trans a b c :
  MetricKeys.LessEq a b = true -> MetricKeys.LessEq b c = true ->
  MetricKeys.LessEq a c = true.
Proof. rewrite !LessEq_spec. apply string_compare_trans. Qed.

Lemma LessEq_antisym a b :
  MetricKeys.LessEq a b = true -> MetricKeys.LessEq b a = true -> a = b.
Proof. apply String.leb_antisym. Qed.

Lemma LessEq_total a b : MetricKeys.LessEq a b = true \/ MetricKeys.LessEq b a = true.
Proof. apply String.leb_total. Qed.

Lemma metric_keys_insert_Permutation key sorted :
  MetricKeys.insert key sorted ≡ₚ key :: sorted.
Proof.
  induction sorted as [| first rest IH]; simpl; [reflexivity |].
  destruct (MetricKeys.LessEq key first); [reflexivity |].
  rewrite IH. apply Permutation_swap.
Qed.

Lemma metric_keys_Sort_Permutation keys : MetricKeys.Sort keys ≡ₚ keys.
Proof.
  induction keys as [| key keys IH]; simpl; [reflexivity |].
  rewrite metric_keys_insert_Permutation, IH. reflexivity.
Qed.

Lemma metric_keys_insert_Sorted key sorted :
  Sorted (fun a b => MetricKeys.LessEq a b = true) sorted ->
  Sorted (fun a b => MetricKeys.LessEq a b = true) (MetricKeys.insert key sorted).
Proof.
  induction sorted as [| first rest IH]; intros Hsorted; simpl.
  - repeat constructor.
  - destruct (MetricKeys.LessEq key first) eqn:Hle.
    + constructor; [exact Hsorted | constructor; exact Hle].
    + apply Sorted_inv in Hsorted as [Hrest Hhd].
      constructor; [apply IH; exact Hrest |].
      assert (Hfirst : MetricKeys.LessEq first key = true).
      { destruct (LessEq_total key first) as [H | H]; [congruence | exact H]. }
      destruct rest as [| second rest]; simpl.
      * constructor. exact Hfirst.
      * destruct (MetricKeys.LessEq key second); constructor; [exact Hfirst |].
        inversion Hhd; assumption.
Qed.

Lemma metric_keys_Sort_Sorted keys :
  Sorted (fun a b => MetricKeys.LessEq a b = true) (MetricKeys.Sort keys).
Proof.
  induction keys as [| key keys IH]; simpl; [constructor |].
  apply metric_keys_insert_Sorted. exact IH.
Qed.

(** Two sorted lists with the same elements, counted, are equal. *)
Lemma metric_keys_Sorted_unique l1 l2 :
  Sorted (fun a b => MetricKeys.LessEq a b = true) l1 ->
  Sorted (fun a b => MetricKeys.LessEq a b = true) l2 ->
  l1 ≡ₚ l2 -> l1 = l2.
Proof.
  apply (@Sorted_unique string (fun a b => MetricKeys.LessEq a b = true)).
  - intros a b c. apply LessEq_trans.
  - intros a b. apply LessEq_antisym.
Qed.

Lemma metric_keys_Sort_order_independent keys1 keys2 :
  keys1 ≡ₚ keys2 -> MetricKeys.Sort keys1 = MetricKeys.Sort keys2.
Proof.
  intros Hperm. apply metric_keys_Sorted_unique; try apply metric_keys_Sort_Sorted.
  rewrite !metric_keys_Sort_Permutation. exact Hperm.
Qed.

(** ** The loop of lines 324 to 329 *)

Lemma filterAdjacent_subset prev values x :
  x ∈ filterAdjacent prev values -> x ∈ values.
Proof.
  revert prev. induction values as [| v rest IH]; intros prev; simpl; [trivial |].
  destruct (decide (prev = Some v)).
  - intros H. right. exact (IH _ H).
  - intros H. apply elem_of_cons in H as [-> | H]; [left | right; exact (IH _ H)].
Qed.

Lemma filterAdjacent_keeps prev values x :
  x ∈ values -> x ∈ filterAdjacent prev values \/ prev = Some x.
Proof.
  revert prev. induction values as [| v rest IH]; intros prev Hin; simpl.
  - inversion Hin.
  - apply elem_of_cons in Hin as [-> | Hin].
    + destruct (decide (prev = Some v)); [right; assumption | left; left].
    + destruct (IH (Some v) Hin) as [H | H].
      * left. destruct (decide (prev = Some v)); [exact H | right; exact H].
      * injection H as ->. destruct (decide (prev = Some x)); [right; assumption | left; left].
Qed.

Lemma filterAdjacent_head prev values first rest :
  filterAdjacent prev values = first :: rest -> prev <> Some first.
Proof.
  revert prev. induction values as [| v values IH]; intros prev; simpl; [discriminate |].
  destruct (decide (prev = Some v)) as [-> | Hne].
  - intros H. exact (IH _ H).
  - intros H. injection H as <- _. exact Hne.
Qed.

Lemma filterAdjacent_no_adjacent prev values :
  forall i a b,
    filterAdjacent prev values !! i = Some a ->
    filterAdjacent prev values !! S i = Some b ->
    a <> b.
Proof.
  revert prev. induction values as [| v rest IH]; intros prev i a b; simpl; [discriminate |].
  destruct (decide (prev = Some v)); [apply IH |].
  destruct i as [| i]; simpl.
  - intros Ha Hb. injection Ha as <-.
    destruct (filterAdjacent (Some v) rest) as [| first tail] eqn:Hrest; [discriminate Hb |].
    simpl in Hb. injection Hb as <-.
    pose proof (filterAdjacent_head _ _ _ _ Hrest). congruence.
  - apply IH.
Qed.


Section DescriptionValues.

Variable natural_sort : list string -> list string.

(** X7: if the sort only reorders, every list of the description has
    exactly the values collected for its key, is not empty, and holds no
    value twice in a row. *)
Theorem select_description_values tr values key out :
  (forall l, natural_sort l ≡ₚ l) ->
  Select.describe natural_sort tr values !! key = Some out ->
  out <> [] /\
  (forall x, x ∈ out <-> x ∈ tagValues key tr values) /\
  (forall i a b, out !! i = Some a -> out !! S i = Some b -> a <> b).
Proof.
  intros Hperm. rewrite describe_lookup.
  destruct (tagValues key tr values) as [| v collected] eqn:Hcollected; [discriminate |].
  intros H. injection H as <-.
  assert (Helem : forall x, x ∈ filterAdjacent None (natural_sort (v :: collected))
                            <-> x ∈ v :: collected).
  { intros x. rewrite <- (Hperm (v :: collected)) at 2. split.
    - apply filterAdjacent_subset.
    - intros Hin. destruct (filterAdjacent_keeps None _ _ Hin) as [H | H];
        [exact H | discriminate H]. }
  split; [| split].
  - intros Hnil. assert (Hv : v ∈ filterAdjacent None (natural_sort (v :: collected))).
    { apply Helem. left. }
    rewrite Hnil in Hv. inversion Hv.
  - exact Helem.
  - apply filterAdjacent_no_adjacent.
Qed.


End DescriptionValues.

(** ** DescribeAllCommand.Execute *)

Lemma filter_Permutation (keep : string -> bool) l1 l2 :
  l1 ≡ₚ l2 -> List.filter keep l1 ≡ₚ List.filter keep l2.
Proof.
  induction 1 as [| x l1 l2 _ IH | x y l | l1 l2 l3 _ IH1 _ IH2]; simpl.
  - reflexivity.
  - destruct (keep x); [constructor; exact IH | exact IH].
  - destruct (keep x), (keep y); try reflexivity. apply Permutation_swap.
  - etransitivity; eassumption.
Qed.

Section DescribeAllProperties.

Variable GetAllMetrics :
  MetricAPI -> option ProfilerRef -> Heap -> result (list string) * Heap.

(** X9: when the backend answers, DescribeAll returns exactly the
    metrics of the answer that the matcher accepts, each as often as the
    backend listed it, in lexicographic order, with their number under
    "count" and no error. *)
Theorem describe_all_result cmd context h metrics h' :
  GetAllMetrics (MetricMetadataAPI context) (Profiler context) h = (Ok metrics, h') ->
  exists body,
    DescribeAll.Execute GetAllMetrics cmd context h =
    Ret (({| Body := MetricsBody body;
             Metadata := Some {[ "count" := MetaCount (Z.of_nat (length body)) ]} |},
          None), h') /\
    Sorted (fun a b => MetricKeys.LessEq a b = true) body /\
    body ≡ₚ List.filter (DescribeAll.MatchString cmd) metrics /\
    (forall metric,
        metric ∈ body <-> metric ∈ metrics /\ DescribeAll.MatchString cmd metric = true) /\
    (length body <= length metrics)%nat.
Proof.
  intros Hbackend.
  exists (MetricKeys.Sort (List.filter (DescribeAll.MatchString cmd) metrics)).
  pose proof (metric_keys_Sort_Permutation
                (List.filter (DescribeAll.MatchString cmd) metrics)) as Hperm.
  split; [| split; [| split; [| split]]].
  - unfold DescribeAll.Execute. rewrite Hbackend. reflexivity.
  - apply metric_keys_Sort_Sorted.
  - exact Hperm.
  - intros metric. rewrite Hperm, list_elem_of_In, filter_In, <- list_elem_of_In.
    reflexivity.
  - rewrite Hperm. apply filter_length_le.
Qed.

(** X10: the answer of DescribeAll does not depend on the order in which
    the backend lists the metrics. *)
Theorem describe_all_order_independent
    (GetAllMetrics' : MetricAPI -> option ProfilerRef -> Heap -> result (list string) * Heap)
    cmd context h metrics metrics' h' :
  GetAllMetrics (MetricMetadataAPI context) (Profiler context) h = (Ok metrics, h') ->
  GetAllMetrics' (MetricMetadataAPI context) (Profiler context) h = (Ok metrics', h') ->
  metrics ≡ₚ metrics' ->
  DescribeAll.Execute GetAllMetrics cmd context h =
  DescribeAll.Execute GetAllMetrics' cmd context h.
Proof.
  intros Hbackend Hbackend' Hperm. unfold DescribeAll.Execute.
  rewrite Hbackend, Hbackend'. cbv zeta.
  rewrite (metric_keys_Sort_order_independent
             (List.filter (DescribeAll.MatchString cmd) metrics)
             (List.filter (DescribeAll.MatchString cmd) metrics')
             (filter_Permutation _ _ _ Hperm)).
  reflexivity.
Qed.

End DescribeAllProperties.

(** ** DescribeCommand.Execute *)

Lemma enlarged_empty entry : enlarged entry ∅ = entry.
Proof. unfold enlarged. destruct (decide _); [reflexivity | congruence]. Qed.

Lemma enlarged_union entry more1 more2 :
  enlarged (enlarged entry more1) more2 = enlarged entry (more1 ∪ more2).
Proof.
  unfold enlarged.
  destruct (decide (more1 = ∅)) as [-> | H1].
  - rewrite (left_id_L ∅ (∪)). reflexivity.
  - destruct (decide (more2 = ∅)) as [-> | H2].
    + rewrite (right_id_L ∅ (∪)). rewrite decide_False by exact H1. reflexivity.
    + rewrite decide_False.
      * simpl. f_equal.
        rewrite (assoc_L (∪)), (comm_L (∪) more2 more1). reflexivity.
      * intros H. apply empty_union_L in H as [H _]. contradiction.
Qed.

Lemma describe_addValue_lookup sets key value k :
  Describe.addValue sets key value !! k =
  if decide (key = k) then enlarged (sets !! k) {[value]} else sets !! k.
Proof.
  unfold Describe.addValue. destruct (decide (key = k)) as [-> | Hne].
  - rewrite lookup_insert_eq. unfold enlarged.
    rewrite decide_False by apply non_empty_singleton_L. reflexivity.
  - rewrite lookup_insert_ne by exact Hne. reflexivity.
Qed.

Lemma describe_addTagSet_lookup sets (tagset : TagSet) k :
  Describe.addTagSet sets tagset !! k =
  enlarged (sets !! k) (list_to_set (option_list (tagset !! k))).
Proof.
  unfold Describe.addTagSet.
  apply (map_fold_weak_ind
           (fun (s : gmap string (gset string)) (m : gmap string string) =>
              s !! k = enlarged (sets !! k) (list_to_set (option_list (m !! k))))).
  - rewrite lookup_empty. simpl. rewrite enlarged_empty. reflexivity.
  - intros key value m s Hfresh IH. rewrite describe_addValue_lookup.
    destruct (decide (key = k)) as [-> | Hne].
    + rewrite lookup_insert_eq, IH, Hfresh. simpl. rewrite enlarged_empty.
      rewrite (right_id_L ∅ (∪)). reflexivity.
    + rewrite lookup_insert_ne by exact Hne. exact IH.
Qed.

(** What the loop of lines 111 to 121 leaves under each key. *)
Lemma keyValueSets_lookup predicate tagsets k :
  Describe.keyValueSets predicate tagsets !! k =
  enlarged None (acceptedValues k predicate tagsets).
Proof.
  unfold Describe.keyValueSets, acceptedValues.
  rewrite <- (lookup_empty (M := gmap string) (A := gset string) k).
  generalize (∅ : gmap string (gset string)) as sets.
  induction tagsets as [| tagset tagsets IH]; intros sets; simpl.
  - rewrite enlarged_empty. reflexivity.
  - rewrite IH, list_to_set_app_L. destruct (predicate tagset).
    + rewrite describe_addTagSet_lookup, enlarged_union. reflexivity.
    + simpl. rewrite (left_id_L ∅ (∪)). reflexivity.
Qed.

Lemma acceptedValues_elem key predicate tagsets value :
  value ∈ acceptedValues key predicate tagsets <->
  exists tagset,
    tagset ∈ tagsets /\ predicate tagset = true /\ tagset !! key = Some value.
Proof.
  unfold acceptedValues. rewrite elem_of_list_to_set, list_elem_of_bind. split.
  - intros (tagset & Hin & Hts). exists tagset. split; [exact Hts |].
    destruct (predicate tagset); [| inversion Hin].
    split; [reflexivity |]. destruct (tagset !! key) as [v |]; simpl in Hin.
    + apply list_elem_of_singleton in Hin. congruence.
    + inversion Hin.
  - intros (tagset & Hts & Hp & Hv). exists tagset. split; [| exact Hts].
    rewrite Hp, Hv. simpl. left.
Qed.


Section DescribeProperties.

Variable GetAllTags :
  MetricAPI -> string -> option ProfilerRef -> Heap -> result (list TagSet) * Heap.
Variable natural_sort : list string -> list string.
Variable rangeOrder : gset string -> list string.

Local Abbreviation Execute := (Describe.Execute GetAllTags natural_sort rangeOrder).

(** X11: when the backend answers and the sort only reorders, Describe
    returns a map that has a key exactly when some tag set accepted by
    the predicate and by the additional constraints has it, and whose
    list for a key holds, once each, the values that the accepted tag
    sets give for it. *)
Theorem describe_result cmd context h tagsets h' :
  (forall l, natural_sort l ≡ₚ l) ->
  (forall set, rangeOrder set ≡ₚ elements set) ->
  GetAllTags (MetricMetadataAPI context) (Describe.MetricName cmd) (Profiler context) h
  = (Ok tagsets, h') ->
  exists lists,
    Execute cmd context h = (Ok lists, h') /\
    forall key,
      (lists !! key = None <->
       forall tagset,
         tagset ∈ tagsets ->
         PredicateAll (Describe.DescribePredicate cmd) (AdditionalConstraints context) tagset
         = true ->
         tagset !! key = None) /\
      (forall values,
          lists !! key = Some values ->
          NoDup values /\
          forall value,
            value ∈ values <->
            exists tagset,
              tagset ∈ tagsets /\
              PredicateAll (Describe.DescribePredicate cmd) (AdditionalConstraints context)
                tagset = true /\
              tagset !! key = Some value).
Proof.
  intros Hsort Hrange Hbackend.
  eexists. split; [unfold Describe.Execute; rewrite Hbackend; reflexivity |].
  intros key. cbv zeta. unfold Describe.keyValueLists.
  rewrite lookup_fmap, keyValueSets_lookup.
  set (predicate := PredicateAll (Describe.DescribePredicate cmd)
                      (AdditionalConstraints context)).
  set (accepted := acceptedValues key predicate tagsets).
  assert (Haccepted : forall value, value ∈ accepted <->
                        exists tagset, tagset ∈ tagsets /\ predicate tagset = true /\
                                       tagset !! key = Some value).
  { intros value. apply acceptedValues_elem. }
  unfold enlarged. destruct (decide (accepted = ∅)) as [Hempty | Hnonempty]; simpl.
  - split.
    + split; [| reflexivity]. intros _ tagset Hin Hp.
      destruct (tagset !! key) as [value |] eqn:Hv; [| reflexivity].
      assert (Hval : value ∈ accepted) by (apply Haccepted; eauto).
      rewrite Hempty in Hval. set_solver.
    + intros values H. discriminate H.
  - split.
    + split; [discriminate |]. intros Hnone. exfalso. apply Hnonempty.
      apply set_eq. intros value. split; [| set_solver].
      intros Hval. apply Haccepted in Hval as (tagset & Hin & Hp & Hv).
      rewrite (Hnone tagset Hin Hp) in Hv. discriminate Hv.
    + intros values H. injection H as <-.
      assert (Hperm : natural_sort (rangeOrder (accepted ∪ ∅)) ≡ₚ elements accepted).
      { rewrite Hsort, Hrange. rewrite (right_id_L ∅ (∪)). reflexivity. }
      split.
      * rewrite Hperm. apply NoDup_elements.
      * intros value. rewrite Hperm, elem_of_elements. apply Haccepted.
Qed.


End DescribeProperties.

(** ** ProfilingCommand.Execute on every exit *)

Lemma finishRecord_All name p h :
  Profiling.All p (Profiling.finishRecord name p h) = Profiling.All p h ++ [name].
Proof.
  unfold Profiling.finishRecord, Profiling.All. rewrite lookup_insert_eq. reflexivity.
Qed.

Lemma finishRecord_other name p q h :
  q <> p -> Profiling.finishRecord name p h !! q = h !! q.
Proof.
  intros Hne. unfold Profiling.finishRecord. apply lookup_insert_ne. congruence.
Qed.

(** X13: when the wrapped command succeeds, the decorator returns its
    Result with the same body and the same metadata under every key but
    "profile"; with no span recorded so far the Result is returned
    untouched, otherwise "profile" holds the spans recorded up to then,
    which do not yet include the span of the decorator itself. *)
Theorem profiling_success_keeps_result cmd context h result h' :
  CommandExecute (Profiling.Wrapped cmd)
    (withProfiler (Some (Profiling.CommandProfiler cmd)) context) h
  = Ret ((result, None), h') ->
  exists r,
    Profiling.Execute cmd context h =
    Ret ((r, None),
         Profiling.finishRecord (Profiling.Name cmd +:+ ".Execute")
           (Profiling.CommandProfiler cmd) h') /\
    Body r = Body result /\
    (forall key, key <> "profile" ->
                 default ∅ (Metadata r) !! key = default ∅ (Metadata result) !! key) /\
    (Profiling.All (Profiling.CommandProfiler cmd) h' = [] -> r = result) /\
    (Profiling.All (Profiling.CommandProfiler cmd) h' <> [] ->
     default ∅ (Metadata r) !! "profile" =
     Some (MetaProfile (Profiling.All (Profiling.CommandProfiler cmd) h'))).
Proof.
  intros Hwrapped. unfold Profiling.Execute. cbv zeta. rewrite Hwrapped.
  destruct (Profiling.All (Profiling.CommandProfiler cmd) h') as [| span spans] eqn:Hall.
  - exists result. simpl. repeat split; try reflexivity. congruence.
  - exists (Profiling.attachProfile (span :: spans) result). simpl.
    split; [reflexivity |]. split; [reflexivity |]. split; [| split].
    + intros key Hkey. rewrite lookup_insert_ne by congruence. reflexivity.
    + discriminate.
    + intros _. rewrite lookup_insert_eq. reflexivity.
Qed.

(** X14: on every return, with or without error, the decorator has
    recorded exactly one more span on its profiler, named after the
    wrapped command, after whatever the wrapped command recorded; the
    other profilers are as the wrapped command left them; and it panics
    exactly when the wrapped command does. *)
Theorem profiling_records_one_span cmd context h :
  (forall ret hf,
      Profiling.Execute cmd context h = Ret (ret, hf) ->
      exists result h',
        CommandExecute (Profiling.Wrapped cmd)
          (withProfiler (Some (Profiling.CommandProfiler cmd)) context) h
        = Ret ((result, snd ret), h') /\
        Profiling.All (Profiling.CommandProfiler cmd) hf =
        Profiling.All (Profiling.CommandProfiler cmd) h'
          ++ [CommandName (Profiling.Wrapped cmd) +:+ ".Execute"] /\
        forall q, q <> Profiling.CommandProfiler cmd -> hf !! q = h' !! q)
  /\
  (forall msg,
      Profiling.Execute cmd context h = Panic msg <->
      CommandExecute (Profiling.Wrapped cmd)
        (withProfiler (Some (Profiling.CommandProfiler cmd)) context) h
      = Panic msg).
Proof.
  unfold Profiling.Execute. cbv zeta.
  destruct (CommandExecute (Profiling.Wrapped cmd)
              (withProfiler (Some (Profiling.CommandProfiler cmd)) context) h)
    as [[[result [err |]] h'] | msg0].
  - split.
    + intros ret hf H. injection H as <- <-. exists result, h'. simpl.
      split; [reflexivity |]. split; [apply finishRecord_All |].
      intros q Hq. apply finishRecord_other. exact Hq.
    + intros msg. split; discriminate.
  - split.
    + intros ret hf H. injection H as <- <-. exists result, h'. simpl.
      split; [reflexivity |]. split; [apply finishRecord_All |].
      intros q Hq. apply finishRecord_other. exact Hq.
    + intros msg. split; discriminate.
  - split.
    + intros ret hf H. discriminate H.
    + intros msg. reflexivity.
Qed.

(** ** The race when the deadline does not fire *)

Section RaceDelivery.

Variable evaluated : result (list Value).
Variable onResult : list Value -> Returned.
Variable onTimeout : Returned.

Local Abbreviation step := (Race.step evaluated onResult onTimeout).
Local Abbreviation anyStep := (Race.anyStep evaluated onResult onTimeout).
Local Abbreviation reachable := (Race.reachable evaluated onResult onTimeout).

(** What the caller returns for what the evaluation returned. *)
Local Abbreviation delivered :=
  (match evaluated with
   | Ok values => onResult values
   | Err e => fail e
   end).

(** One channel holds the one value of the evaluation and the other is
    empty. *)
Local Abbreviation holdsDelivery s :=
  ((exists values, evaluated = Ok values /\
                   Chan.buffer (Race.results s) = [values] /\
                   Chan.buffer (Race.errors s) = [])
   \/
   (exists e, evaluated = Err e /\
              Chan.buffer (Race.errors s) = [e] /\
              Chan.buffer (Race.results s) = [])).

Lemma delivered_state s :
  reachable 1 s ->
  Race.task s = Race.Finished ->
  Race.caller s = Race.Selecting ->
  holdsDelivery s.
Proof.
  intros Hreach.
  apply (rtc_ind_r (R := anyStep)
           (fun s => Race.task s = Race.Finished -> Race.caller s = Race.Selecting ->
                     holdsDelivery s)
           (Race.init 1)); [discriminate | | exact Hreach].
  intros s1 s2 Hr1 [l Hstep] IH.
  destruct (invariant_reachable _ _ _ _ _ Hr1) as [Hrc Hec Hunsent _ _ _].
  destruct Hstep as
    [ s1
    | s1 values c Htask Hev Hsend
    | s1 e c Htask Hev Hsend
    | s1 values Htask Hcaller Hev Hcap0
    | s1 e Htask Hcaller Hev Hcap0
    | s1 Hcaller Hdone
    | s1 e c Hcaller Hrecv
    | s1 values c Hcaller Hrecv ]; simpl; try discriminate.
  - exact IH.
  - intros _ _. left. exists values. destruct (Hunsent Htask) as [Hr0 He0].
    destruct (send_inv _ _ _ Hsend) as [_ Hbuf]. rewrite Hbuf, Hr0. auto.
  - intros _ _. right. exists e. destruct (Hunsent Htask) as [Hr0 He0].
    destruct (send_inv _ _ _ Hsend) as [_ Hbuf]. rewrite Hbuf, He0. auto.
Qed.

(** When the select statement is resolved after the goroutine has sent
    and while the deadline has not fired, the caller returns what the
    evaluation delivered. *)
Lemma select_after_delivery l s s' :
  reachable 1 s ->
  Race.task s = Race.Finished ->
  Race.caller s = Race.Selecting ->
  Race.ctxDone s = false ->
  step l s s' -> Race.callerLabel l = true ->
  Race.caller s' = Race.Left delivered.
Proof.
  intros Hreach Htask Hcaller Hdone Hstep Hlabel.
  destruct (delivered_state s Hreach Htask Hcaller)
    as [(values & Hev & Hr & He) | (e & Hev & He & Hr)];
    destruct Hstep as
      [ s
      | s values' c Htask' Hev' Hsend
      | s e' c Htask' Hev' Hsend
      | s values' Htask' Hcaller' Hev' Hcap0
      | s e' Htask' Hcaller' Hev' Hcap0
      | s Hcaller' Hdone'
      | s e' c Hcaller' Hrecv
      | s values' c Hcaller' Hrecv ];
    simpl in Hlabel; try discriminate Hlabel; try congruence; simpl;
    unfold Chan.recv in Hrecv; rewrite ?Hr, ?He in Hrecv; try discriminate Hrecv;
    injection Hrecv as <- _; rewrite Hev; reflexivity.
Qed.


End RaceDelivery.

Section SelectDelivery.

Variable EvaluateMany :
  EvaluationContext -> list Expression -> result (list Value) * EvaluationNotes.
Variable natural_sort : list string -> list string.

Local Abbreviation raceStep := (Select.raceStep EvaluateMany natural_sort).
Local Abbreviation raceReachable := (Select.raceReachable EvaluateMany natural_sort).
Local Abbreviation selectOutcome := (Select.selectOutcome EvaluateMany natural_sort).

Lemma delivered_is_select_outcome context cmd chosenTimerange chosenResolution :
  match fst (Select.evaluation EvaluateMany context cmd chosenTimerange) with
  | Ok values =>
      Select.assemble natural_sort cmd chosenTimerange chosenResolution values
        (snd (Select.evaluation EvaluateMany context cmd chosenTimerange))
  | Err e => fail e
  end
  = selectOutcome TaskFinished context cmd chosenTimerange chosenResolution.
Proof.
  unfold Select.selectOutcome.
  destruct (Select.evaluation EvaluateMany context cmd chosenTimerange) as [[values | e] notes];
    reflexivity.
Qed.

(** X15: when the select statement is resolved after the goroutine has
    sent and while ctx.Done() is still open, some case can proceed and
    whichever does makes Execute return the outcome of the evaluation:
    its error, or the Result assembled from its values. *)
Theorem select_returns_evaluation context cmd chosenTimerange chosenResolution s :
  raceReachable context cmd chosenTimerange chosenResolution s ->
  Race.caller s = Race.Selecting ->
  Race.task s = Race.Finished ->
  Race.ctxDone s = false ->
  (exists l s',
      raceStep context cmd chosenTimerange chosenResolution l s s' /\
      Race.callerLabel l = true)
  /\
  (forall l s',
      raceStep context cmd chosenTimerange chosenResolution l s s' ->
      Race.callerLabel l = true ->
      Race.caller s' =
      Race.Left (selectOutcome TaskFinished context cmd chosenTimerange chosenResolution)).
Proof.
  intros Hreach Hcaller Htask Hdone. split.
  - destruct (delivered_state _ _ _ s Hreach Htask Hcaller)
      as [(values & Hev & Hr & He) | (e & Hev & He & Hr)].
    + exists Race.SelectResult. eexists. split; [| reflexivity].
      eapply Race.step_select_result; [exact Hcaller |].
      unfold Chan.recv. rewrite Hr. reflexivity.
    + exists Race.SelectError. eexists. split; [| reflexivity].
      eapply Race.step_select_error; [exact Hcaller |].
      unfold Chan.recv. rewrite He. reflexivity.
  - intros l s' Hstep Hlabel.
    rewrite (select_after_delivery _ _ _ l s s' Hreach Htask Hcaller Hdone Hstep Hlabel).
    rewrite delivered_is_select_outcome. reflexivity.
Qed.


End SelectDelivery.

(** ** The further properties on concrete requests *)

Lemma select_error_has_empty_result_witness :
  Select.Execute gridSnappedTimerange (Example.evaluateTo Example.twoHosts [])
    NaturalSort.Sort TaskFinished Example.scenarioA Example.contextB
  = Ret (emptyResult,
         Some (LimitError "Requested number of data points exceeds the configured limit"
                 (IntValue 10) (IntValue 3)))
  /\ (emptyResult = emptyResult /\ Body emptyResult = NilBody /\ Metadata emptyResult = None).
Proof.
  split; [reflexivity |].
  apply (select_error_has_empty_result gridSnappedTimerange
           (Example.evaluateTo Example.twoHosts []) NaturalSort.Sort
           TaskFinished Example.scenarioA Example.contextB emptyResult
           (LimitError "Requested number of data points exceeds the configured limit"
              (IntValue 10) (IntValue 3))).
  reflexivity.
Defined.


Lemma select_body_shape_witness :
  exists chosenTimerange chosenResolution values notes body,
    Select.chosenOf gridSnappedTimerange Example.scenarioD Example.contextA
    = Ret (Ok (chosenTimerange, chosenResolution)) /\
    Select.evaluation (Example.evaluateTo Example.twoHosts []) Example.contextA
      Example.scenarioD chosenTimerange = (Ok values, notes) /\
    Body Sample.resultD = SelectBody body /\
    length body = length values /\
    (length values <= length (Expressions Example.scenarioD))%nat /\
    forall i value,
      values !! i = Some value ->
      exists expression q,
        Expressions Example.scenarioD !! i = Some expression /\
        body !! i = Some q /\
        Query q = ExpressionDescription expression StringQueryMode /\
        QueryName q = ExpressionDescription expression StringNameMode /\
        ((exists l, asSeriesListValue value = Some l /\
                    QueryType q = "series" /\ QuerySeries q = Series l /\
                    QueryTimerange q = chosenTimerange /\ QueryScalars q = [])
         \/
         (exists scalars, asSeriesListValue value = None /\
                          ToScalarSet value = Ok scalars /\
                          QueryType q = "scalars" /\ QueryScalars q = scalars /\
                          QueryTimerange q = zeroTimerange /\ QuerySeries q = [])).
Proof.
  apply (select_body_shape gridSnappedTimerange
           (Example.evaluateTo Example.twoHosts []) NaturalSort.Sort
           TaskFinished Example.scenarioD Example.contextA Sample.resultD).
  vm_compute. reflexivity.
Defined.

Lemma select_surplus_value_panics_witness :
  Select.Execute gridSnappedTimerange (Example.evaluateTo Sample.surplus [])
    NaturalSort.Sort TaskFinished Example.scenarioA Example.contextA
  = Panic index_out_of_range.
Proof.
  apply (select_surplus_value_panics gridSnappedTimerange
           (Example.evaluateTo Sample.surplus []) NaturalSort.Sort
           Example.scenarioA Example.contextA
           (mkTimerange 0 8000 2000) (2000 * Millisecond) Sample.surplus []).
  - reflexivity.
  - vm_compute. discriminate.
  - reflexivity.
  - simpl. lia.
  - intros i value Hi Hvalue [_ [e He]]. simpl in Hi.
    destruct i as [| i]; [| lia]. injection Hvalue as <-. discriminate He.
Defined.

Lemma select_succeeds_only_with_usable_limit_witness :
  SlotLimit Example.contextA = 0 \/ SlotLimit Example.contextA = 1 \/
  3 <= SlotLimit Example.contextA.
Proof.
  apply (select_succeeds_only_with_usable_limit gridSnappedTimerange
           (Example.evaluateTo Example.twoHosts []) NaturalSort.Sort
           TaskFinished Example.scenarioD Example.contextA Sample.resultD).
  - intros start end_ resolution tr Hsnap.
    apply (gridSnappedTimerange_valid start end_ resolution tr Hsnap).
  - vm_compute. reflexivity.
Defined.

Lemma select_margin_suffices_witness :
  Slots (mkTimerange 0 8000 2000) <= Select.slotLimitOf Example.contextA /\
  Select.Execute gridSnappedTimerange (Example.evaluateTo Example.twoHosts [])
    NaturalSort.Sort TaskFinished Example.scenarioA Example.contextA
  = Select.selectOutcome (Example.evaluateTo Example.twoHosts []) NaturalSort.Sort
      TaskFinished Example.contextA Example.scenarioA (mkTimerange 0 8000 2000)
      (2000 * Millisecond).
Proof.
  apply (select_margin_suffices gridSnappedTimerange
           (Example.evaluateTo Example.twoHosts []) NaturalSort.Sort
           TaskFinished Example.scenarioA Example.contextA
           (mkTimerange 0 9000 1000) (mkTimerange 0 8000 2000)
           (2000 * Millisecond) 2000).
  - reflexivity.
  - simpl. lia.
  - unfold fits64, MinInt64, MaxInt64, Millisecond. simpl. lia.
  - change (3 <= 10 <= 1000002). lia.
  - reflexivity.
  - reflexivity.
  - lia.
  - intros smallestResolution Hsmallest. vm_compute in Hsmallest.
    injection Hsmallest as <-. unfold Millisecond. lia.
  - reflexivity.
  - simpl. lia.
Defined.

Lemma natural_sort_insert_Permutation x sorted :
  NaturalSort.insertSorted x sorted ≡ₚ x :: sorted.
Proof.
  induction sorted as [| y rest IH]; simpl; [reflexivity |].
  destruct (NaturalSort.naturalLe x y); [reflexivity |].
  rewrite IH. apply Permutation_swap.
Qed.

Lemma natural_sort_Permutation values : NaturalSort.Sort values ≡ₚ values.
Proof.
  induction values as [| x values IH]; simpl; [reflexivity |].
  rewrite natural_sort_insert_Permutation, IH. reflexivity.
Qed.

Lemma select_description_values_witness :
  ["a"; "b"] <> [] /\
  (forall x, x ∈ ["a"; "b"]
             <-> x ∈ tagValues "host" (mkTimerange 0 8000 2000) Sample.repeatedHosts) /\
  (forall i a b, ["a"; "b"] !! i = Some a -> ["a"; "b"] !! S i = Some b -> a <> b).
Proof.
  apply (select_description_values NaturalSort.Sort (mkTimerange 0 8000 2000)
           Sample.repeatedHosts "host" ["a"; "b"]).
  - apply natural_sort_Permutation.
  - vm_compute. reflexivity.
Defined.


Lemma describe_all_result_witness :
  exists body,
    DescribeAll.Execute (Sample.getAllMetrics Sample.allMetrics) Sample.cpuOnly
      Example.contextA ∅ =
    Ret (({| Body := MetricsBody body;
             Metadata := Some {[ "count" := MetaCount (Z.of_nat (length body)) ]} |},
          None), ∅) /\
    Sorted (fun a b => MetricKeys.LessEq a b = true) body /\
    body ≡ₚ List.filter (DescribeAll.MatchString Sample.cpuOnly) Sample.allMetrics /\
    (forall metric,
        metric ∈ body <->
        metric ∈ Sample.allMetrics /\ DescribeAll.MatchString Sample.cpuOnly metric = true) /\
    (length body <= length Sample.allMetrics)%nat.
Proof.
  apply (describe_all_result (Sample.getAllMetrics Sample.allMetrics) Sample.cpuOnly
           Example.contextA ∅ Sample.allMetrics ∅).
  reflexivity.
Defined.

(** The three metrics in two orders give ["cpu.idle", "cpu.user"]. *)
Lemma describe_all_order_independent_witness :
  DescribeAll.Execute (Sample.getAllMetrics ["cpu.user"; "mem.free"; "cpu.idle"])
    Sample.cpuOnly Example.contextA ∅ =
  DescribeAll.Execute (Sample.getAllMetrics ["mem.free"; "cpu.user"; "cpu.idle"])
    Sample.cpuOnly Example.contextA ∅.
Proof.
  apply (describe_all_order_independent
           (Sample.getAllMetrics ["cpu.user"; "mem.free"; "cpu.idle"])
           (Sample.getAllMetrics ["mem.free"; "cpu.user"; "cpu.idle"])
           Sample.cpuOnly Example.contextA ∅
           ["cpu.user"; "mem.free"; "cpu.idle"] ["mem.free"; "cpu.user"; "cpu.idle"] ∅).
  - reflexivity.
  - reflexivity.
  - apply Permutation_swap.
Defined.

Lemma describe_all_cpu_metrics :
  DescribeAll.Execute (Sample.getAllMetrics Sample.allMetrics) Sample.cpuOnly
    Example.contextA ∅ =
  Ret (({| Body := MetricsBody ["cpu.idle"; "cpu.user"];
           Metadata := Some {[ "count" := MetaCount 2 ]} |}, None), ∅).
Proof. vm_compute. reflexivity. Qed.

Lemma describe_result_witness :
  exists lists,
    Describe.Execute (Sample.getAllTags Sample.allTags) NaturalSort.Sort elements
      Sample.describeCpu Example.contextA ∅ = (Ok lists, ∅) /\
    forall key,
      (lists !! key = None <->
       forall tagset,
         tagset ∈ Sample.allTags ->
         PredicateAll (Describe.DescribePredicate Sample.describeCpu)
           (AdditionalConstraints Example.contextA) tagset = true ->
         tagset !! key = None) /\
      (forall values,
          lists !! key = Some values ->
          NoDup values /\
          forall value,
            value ∈ values <->
            exists tagset,
              tagset ∈ Sample.allTags /\
              PredicateAll (Describe.DescribePredicate Sample.describeCpu)
                (AdditionalConstraints Example.contextA) tagset = true /\
              tagset !! key = Some value).
Proof.
  apply (describe_result (Sample.getAllTags Sample.allTags) NaturalSort.Sort elements
           Sample.describeCpu Example.contextA ∅ Sample.allTags ∅).
  - apply natural_sort_Permutation.
  - reflexivity.
  - reflexivity.
Defined.


(** The tag sets without a data centre are left out. *)
Lemma describe_data_centres :
  Describe.Execute (Sample.getAllTags Sample.allTags) NaturalSort.Sort elements
    Sample.describeCpu Example.contextA ∅ =
  (Ok {[ "dc" := ["east"; "west"]; "host" := ["a"; "b"] ]}, ∅).
Proof. vm_compute. reflexivity. Qed.

(** DescribeMetricsCommand behind the decorator, on a heap where the
    profiler has one span: the body and the count stay, the profile is
    the one span, and the span of the decorator is recorded last. *)
Lemma profiling_success_keeps_result_witness :
  exists r,
    Profiling.Execute
      {| Profiling.CommandProfiler := 1%nat;
         Profiling.Wrapped := DescribeMetrics.asCommand Example.describeHostA |}
      Example.contextA Example.heapWithSpan =
    Ret ((r, None),
         Profiling.finishRecord "describe metrics.Execute" 1%nat Example.heapWithSpan) /\
    Body r = MetricsBody [] /\
    (forall key, key <> "profile" ->
                 default ∅ (Metadata r) !! key =
                 ({[ "count" := MetaCount 0 ]} : gmap string MetaValue) !! key) /\
    (Profiling.All 1%nat Example.heapWithSpan = [] ->
     r = {| Body := MetricsBody []; Metadata := Some {[ "count" := MetaCount 0 ]} |}) /\
    (Profiling.All 1%nat Example.heapWithSpan <> [] ->
     default ∅ (Metadata r) !! "profile" =
     Some (MetaProfile (Profiling.All 1%nat Example.heapWithSpan))).
Proof.
  exact (profiling_success_keeps_result
           {| Profiling.CommandProfiler := 1%nat;
              Profiling.Wrapped := DescribeMetrics.asCommand Example.describeHostA |}
           Example.contextA Example.heapWithSpan
           {| Body := MetricsBody []; Metadata := Some {[ "count" := MetaCount 0 ]} |}
           Example.heapWithSpan eq_refl).
Defined.

Lemma profiling_records_one_span_witness :
  exists result h',
    CommandExecute (DescribeMetrics.asCommand Example.describeHostA)
      (withProfiler (Some 1%nat) Example.contextBackendDown) Example.heapWithSpan
    = Ret ((result, Some (ExternalError "metadata backend unavailable")), h') /\
    Profiling.All 1%nat {[ 1%nat := ["parse"; "describe metrics.Execute"] ]} =
    Profiling.All 1%nat h' ++ ["describe metrics.Execute"] /\
    forall q, q <> 1%nat ->
              ({[ 1%nat := ["parse"; "describe metrics.Execute"] ]} : Heap) !! q = h' !! q.
Proof.
  apply (proj1 (profiling_records_one_span
                  {| Profiling.CommandProfiler := 1%nat;
                     Profiling.Wrapped := DescribeMetrics.asCommand Example.describeHostA |}
                  Example.contextBackendDown Example.heapWithSpan)
           (emptyResult, Some (ExternalError "metadata backend unavailable"))
           {[ 1%nat := ["parse"; "describe metrics.Execute"] ]}).
  vm_compute. reflexivity.
Defined.

Lemma select_returns_evaluation_witness :
  (exists l s',
      Select.raceStep (Example.evaluateTo Example.twoHosts []) NaturalSort.Sort
        Example.context50ms Example.scenarioD (mkTimerange 0 8000 2000)
        (2000 * Millisecond) l Sample.sent s' /\
      Race.callerLabel l = true)
  /\
  (forall l s',
      Select.raceStep (Example.evaluateTo Example.twoHosts []) NaturalSort.Sort
        Example.context50ms Example.scenarioD (mkTimerange 0 8000 2000)
        (2000 * Millisecond) l Sample.sent s' ->
      Race.callerLabel l = true ->
      Race.caller s' =
      Race.Left (Select.selectOutcome (Example.evaluateTo Example.twoHosts [])
                   NaturalSort.Sort TaskFinished Example.context50ms Example.scenarioD
                   (mkTimerange 0 8000 2000) (2000 * Millisecond))).
Proof.
  apply (select_returns_evaluation (Example.evaluateTo Example.twoHosts [])
           NaturalSort.Sort Example.context50ms Example.scenarioD
           (mkTimerange 0 8000 2000) (2000 * Millisecond) Sample.sent).
  - eapply rtc_l; [| apply rtc_refl].
    exists Race.TaskSend.
    apply (Race.step_send_result _ _ _ Select.raceInit Example.twoHosts
             (Chan.mkChan 1 [Example.twoHosts])); reflexivity.
  - reflexivity.
  - reflexivity.
  - reflexivity.
Defined.


(** ** SelectCommand.Execute: the metadata of a success *)

Section SelectMetadata.

Variable NewSnappedTimerange : Z -> Z -> Z -> result Timerange.
Variable EvaluateMany :
  EvaluationContext -> list Expression -> result (list Value) * EvaluationNotes.
Variable natural_sort : list string -> list string.

Local Abbreviation Execute := (Select.Execute NewSnappedTimerange EvaluateMany natural_sort).
Local Abbreviation chosenOf := (Select.chosenOf NewSnappedTimerange).

(** X17: the metadata of a successful Select has the three keys
    "description", "notes" and "resolution" and no other; "notes" holds
    the notes the evaluation left, and "resolution" the duration the
    backend chose, as it chose it. *)
Theorem select_metadata_keys choice cmd context r :
  Execute choice cmd context = succeed r ->
  exists chosenTimerange chosenResolution values notes metadata,
    chosenOf cmd context = Ret (Ok (chosenTimerange, chosenResolution)) /\
    Select.evaluation EvaluateMany context cmd chosenTimerange = (Ok values, notes) /\
    Metadata r = Some metadata /\
    (forall key,
        is_Some (metadata !! key) <->
        key = "description" \/ key = "notes" \/ key = "resolution") /\
    metadata !! "notes" = Some (MetaNotes notes) /\
    metadata !! "resolution" = Some (MetaResolution chosenResolution).
Proof.
  intros Hr.
  destruct (Execute_succeeds_metadata _ _ _ _ _ _ _ Hr)
    as (ct & cr & values & notes & Hchosen & Heval & Hmeta).
  exists ct, cr, values, notes,
    (Select.selectMetadata (Select.describe natural_sort ct values) notes cr).
  split; [exact Hchosen |]. split; [exact Heval |]. split; [exact Hmeta |].
  unfold Select.selectMetadata. split; [| split].
  - intros key.
    destruct (decide (key = "description")) as [-> | Hd].
    { rewrite lookup_insert_eq. split; [auto | eauto]. }
    rewrite lookup_insert_ne by congruence.
    destruct (decide (key = "notes")) as [-> | Hn].
    { rewrite lookup_insert_eq. split; [auto | eauto]. }
    rewrite lookup_insert_ne by congruence.
    destruct (decide (key = "resolution")) as [-> | Hres].
    { rewrite lookup_insert_eq. split; [auto | eauto]. }
    rewrite lookup_insert_ne by congruence. rewrite lookup_empty.
    split; [intros [x Hx]; discriminate Hx | intros [H | [H | H]]; contradiction].
  - rewrite lookup_insert_ne by discriminate. rewrite lookup_insert_eq. reflexivity.
  - rewrite lookup_insert_ne by discriminate. rewrite lookup_insert_ne by discriminate.
    rewrite lookup_insert_eq. reflexivity.
Qed.

End SelectMetadata.

Lemma select_metadata_keys_witness :
  exists chosenTimerange chosenResolution values notes metadata,
    Select.chosenOf gridSnappedTimerange Example.scenarioD Example.contextA
    = Ret (Ok (chosenTimerange, chosenResolution)) /\
    Select.evaluation (Example.evaluateTo Example.twoHosts []) Example.contextA
      Example.scenarioD chosenTimerange = (Ok values, notes) /\
    Metadata Sample.resultD = Some metadata /\
    (forall key,
        is_Some (metadata !! key) <->
        key = "description" \/ key = "notes" \/ key = "resolution") /\
    metadata !! "notes" = Some (MetaNotes notes) /\
    metadata !! "resolution" = Some (MetaResolution chosenResolution).
Proof.
  apply (select_metadata_keys gridSnappedTimerange
           (Example.evaluateTo Example.twoHosts []) NaturalSort.Sort
           TaskFinished Example.scenarioD Example.contextA Sample.resultD).
  vm_compute. reflexivity.
Defined.
